(** * The URL-shortening worker of [src/main.py]

    A shallow embedding of [ShortenWorker.run] (lines 21-74) and of
    [ShortenWorker.stop] (lines 76-77), with the properties of the
    specification proved about it.

    The worker's surroundings are made explicit:
    - the worksheet is a finite map from (row, column) to Python values;
    - the file system is a finite map from paths to files, and saving is
      an oracle too, since [workbook.save] can fail;
    - the remote API is an oracle that gives, for the row being processed,
      what [requests.get(...)] followed by [response.json()] does;
    - the cancellation flag [is_running] is written by another thread; the
      worker only reads it, once per loop iteration and once after the loop,
      so a run is determined by the number of rows processed when [stop()]
      takes effect;
    - everything the worker does to the outside (signals, HTTP requests,
      cell assignments, the save) is recorded, in order, in a trace. *)

From Stdlib Require Import ZArith QArith Qround Qpower Lia Lqa Ascii.
From stdpp Require Import base gmap list strings sorting.

Set Warnings "-register-all".

(** ** Python floats

    [int((i / total_urls) * 100)] (line 42) is computed in binary64: the
    quotient of two ints is the correctly rounded true quotient, the product
    is rounded again, and [int] truncates.  The values involved lie in
    [0, 100], far from overflow, and a quotient [i / total_urls] is subnormal
    only for lists of more than 2^1022 cells, so rounding is modelled on the
    rationals with an unbounded exponent: 53 significant bits, ties to
    even. *)

Module Float.

(** Nearest integer, ties to the even one. *)
Definition round_half_even (x : Q) : Z :=
  let f := Qfloor x in
  match Qcompare (x - inject_Z f) (1 # 2) with
  | Lt => f
  | Gt => (f + 1)%Z
  | Eq => if Z.even f then f else (f + 1)%Z
  end.

(** For [0 < x], the [l] with [2^l <= x < 2^(l+1)]. *)
Definition floor_log2 (x : Q) : Z :=
  let l := (Z.log2 (Qnum x) - Z.log2 (Zpos (Qden x)))%Z in
  if Qle_bool (2 ^ l) x then l else (l - 1)%Z.

(** The binary64 number nearest to a non-negative [x]. *)
Definition round_binary64 (x : Q) : Q :=
  if Qle_bool x 0 then 0%Q
  else let e := (floor_log2 x - 52)%Z in
       (inject_Z (round_half_even (x / 2 ^ e)) * 2 ^ e)%Q.

(** [i / n] on two ints. *)
Definition true_div (i n : nat) : Q :=
  round_binary64 (inject_Z (Z.of_nat i) / inject_Z (Z.of_nat n)).

(** [x * 100] on a float. *)
Definition times_100 (x : Q) : Q := round_binary64 (x * 100).

(** [int((i / total_urls) * 100)]. *)
Definition percent (i total_urls : nat) : Z :=
  Qfloor (times_100 (true_div i total_urls)).

End Float.

(** ** Python values

    The values held by cells and found in a decoded JSON body.  A float is
    given by its exact value, a [str] by its UTF-8 encoding. *)

Inductive pyval :=
| PNone
| PBool (b : bool)
| PInt (n : Z)
| PFloat (q : Q)
| PStr (s : string)
| PList (l : list pyval)
| PDict (d : gmap string pyval).

Module Py.

(** [bool(v)], as tested by [if cell.value:] (line 29). *)
Definition truthy (v : pyval) : bool :=
  match v with
  | PNone => false
  | PBool b => b
  | PInt n => negb (n =? 0)%Z
  | PFloat q => negb (Qeq_bool q 0)
  | PStr s => match s with EmptyString => false | String _ _ => true end
  | PList l => match l with [] => false | _ :: _ => true end
  | PDict d => negb (size d =? 0)%nat
  end.

(** [v == n] for an int literal [n], as in [... == 200] (line 49): numbers
    compare by value, a bool counts as 0 or 1, anything else is unequal. *)
Definition eq_int (v : pyval) (n : Z) : bool :=
  match v with
  | PInt m => (m =? n)%Z
  | PBool b => (Z.b2z b =? n)%Z
  | PFloat q => Qeq_bool q (inject_Z n)
  | _ => false
  end.

(** [d.get(key, default)]; [d.get(key)] is [get d key PNone]. *)
Definition get (d : gmap string pyval) (key : string) (dflt : pyval) : pyval :=
  default dflt (d !! key).

(** [isinstance(v, str)]: what a signal argument declared [str] accepts. *)
Definition is_str (v : pyval) : bool :=
  match v with PStr _ => true | _ => false end.

(** [type(v).__name__]. *)
Definition type_name (v : pyval) : string :=
  match v with
  | PNone => "NoneType"
  | PBool _ => "bool"
  | PInt _ => "int"
  | PFloat _ => "float"
  | PStr _ => "str"
  | PList _ => "list"
  | PDict _ => "dict"
  end.

End Py.

(** An exception, as far as the text [str(e)] of lines 58, 60 and 74 goes:
    the text itself, or the exception of a library whose text is built from
    a value. *)
Inductive exception :=
| Message (text : string)
| CannotConvert (v : pyval)        (* openpyxl, ValueError: Cannot convert {v!r} to Excel *)
| IllegalCharacter (s : string)    (* openpyxl, IllegalCharacterError for the string [s] *)
| NotAString (v : pyval)           (* PyQt, TypeError of [emit]: argument 2 is no [str] *)
| UnsupportedFormat (path : string).  (* openpyxl, InvalidFileException for the extension *)

(** ** The worksheet

    [sheet] holds the cells that exist; a cell that does not exist reads as
    [None].  Rows and columns count from 1.  The sheet has no merged ranges
    (openpyxl makes the cells of a merged range read-only). *)

Abbreviation coord := (nat * nat)%type.
Abbreviation sheet := (gmap (nat * nat) pyval).

Module Sheet.

(** [sheet.cell(row, column).value]. *)
Definition value (sh : sheet) (c : coord) : pyval := default PNone (sh !! c).

(** A byte that continues a UTF-8 character. *)
Definition continuation (a : ascii) : bool :=
  (128 <=? nat_of_ascii a) && (nat_of_ascii a <? 192).

(** [s[:n]]: the first [n] characters of [s]. *)
Fixpoint take_chars (n : N) (s : string) : string :=
  match s with
  | EmptyString => EmptyString
  | String a rest =>
      if continuation a then String a (take_chars n rest)
      else if (n =? 0)%N then EmptyString
      else String a (take_chars (N.pred n) rest)
  end.

(** The characters openpyxl refuses in a cell:
    [[\000-\010]|[\013-\014]|[\016-\037]]. *)
Definition illegal (a : ascii) : bool :=
  let n := nat_of_ascii a in
  (n <=? 8) || (n =? 11) || (n =? 12) || ((14 <=? n) && (n <=? 31)).

Fixpoint has_illegal (s : string) : bool :=
  match s with
  | EmptyString => false
  | String a rest => illegal a || has_illegal rest
  end.

(** What the setter of [cell.value] makes of [v] (openpyxl's
    [Cell._bind_value] and [check_string]): [None], a bool or a number is
    stored as it is; a string is cut to 32767 characters and refused when
    what is left has an illegal character; a list or a dict is refused. *)
Definition bind_value (v : pyval) : exception + pyval :=
  match v with
  | PNone | PBool _ | PInt _ | PFloat _ => inr v
  | PStr s =>
      let s' := take_chars 32767 s in
      if has_illegal s' then inl (IllegalCharacter s') else inr (PStr s')
  | PList _ | PDict _ => inl (CannotConvert v)
  end.

(** [sheet.cell(row, column).value = v]: the sheet afterwards, or the
    exception of the setter, which leaves the sheet as it is. *)
Definition set_value (sh : sheet) (c : coord) (v : pyval) : exception + sheet :=
  match bind_value v with
  | inl e => inl e
  | inr stored => inr (<[c := stored]> sh)
  end.

(** [sheet.max_row]: the largest row that has a cell, 1 for an empty sheet. *)
Definition max_row (sh : sheet) : nat :=
  1 `max` max_list ((λ kv : coord * pyval, kv.1.1) <$> map_to_list sh).

(** The cells yielded by [sheet.iter_rows(min_row=2, min_col=2, max_col=2)]:
    column 2 of rows 2 to [max_row]. *)
Definition iter_rows (sh : sheet) : list coord :=
  (λ r, (r, 2)) <$> seq 2 (max_row sh - 1).

End Sheet.

(** ** The worker's surroundings *)

(** What the body of the per-row [try] (lines 45-47) meets when it asks the
    API: an exception of class [requests.RequestException], any other
    exception, or a decoded JSON body. *)
Inductive api_result :=
| RaisesRequestException (e : string)
| RaisesException (e : string)
| Json (body : pyval).

(** A file on disk, as [openpyxl.load_workbook] finds it under its name: a
    workbook (its active sheet, a worksheet), or something on which lines
    23-27 raise the exception [e], other than [FileNotFoundError]: a file
    that [load_workbook] cannot read or rejects.  A spreadsheet kept under a
    name without one of the supported extensions is of the second kind. *)
Inductive file :=
| Workbook (sh : sheet)
| NotAWorkbook (e : string).

(** What [workbook.save(save_path)] (line 66) does: it writes the file, or
    raises [FileNotFoundError] (the directory has gone), or raises another
    exception [e] (the file is locked or read-only, the disk is full); in
    the last case the file is as it was ([damage = None]) or is left damaged,
    so that [load_workbook] would reject it with [e'] ([damage = Some e']). *)
Inductive save_result :=
| SaveSucceeds
| SaveRaisesFileNotFound
| SaveRaises (e : string) (damage : option string).

(** [self]: the fields set by [__init__] (lines 15-19).  [is_running] starts
    [True]; [stop_after = Some k] says that [stop()] sets it to [False] once
    [k] rows have been processed, [None] that [stop()] is never called.
    [api] and [save] are what the network and the file system do to the
    run. *)
Record worker := {
  filepath : string;
  api_key : string;
  stop_after : option nat;
  api : nat → api_result;         (* by the row of the cell being shortened *)
  save : save_result
}.

(** ** What the worker does to the outside *)

(** The four lines sent on [log_updated] (lines 52, 55, 58, 60). *)
Inductive log_line :=
| Success (url : string) (short_url : pyval)         (* 成功: {url} -> {short_url} *)
| Failure (url : string) (error_message : pyval)     (* 失敗: {url} ({error_message}) *)
| RequestError (url : string) (e : string)           (* APIリクエストエラー: {url} ({e}) *)
| Error (url : string) (e : exception).              (* エラー: {url} ({e}) *)

(** The five messages sent on [finished] (lines 34, 67, 69, 72, 74). *)
Inductive terminal :=
| NoUrlsFound                       (* 短縮するURLが見つかりませんでした。 *)
| Completed (save_path : string)    (* 処理が完了しました。ファイルは {save_path} に保存されました。 *)
| Interrupted                       (* 処理が中断されました。 *)
| FileNotFound                      (* エラー: ファイルが見つかりません。 *)
| Unexpected (e : exception).       (* 予期せぬエラーが発生しました: {e} *)

Inductive effect :=
| ProgressUpdated (value : Z) (text : string)   (* progress_updated.emit *)
| LogUpdated (line : log_line)                  (* log_updated.emit *)
| Finished (message : terminal)                 (* finished.emit *)
| HttpGet (api_url : string)                    (* requests.get *)
| CellAssigned (c : coord) (v : pyval)          (* sheet.cell(...).value = v, taken by the setter *)
| Saved (save_path : string).                   (* workbook.save, returned *)

(** An entry of the trace: the effect, and the row of the cell whose loop
    iteration produced it ([None] outside the loop). *)
Abbreviation event := (option nat * effect)%type.

Module Worker.

(** The value of [self.is_running] read when [rows_done] rows have been
    processed. *)
Definition is_running (w : worker) (rows_done : nat) : bool :=
  match stop_after w with
  | None => true
  | Some k => rows_done <? k
  end.

(** Line 45. *)
Definition api_url (w : worker) (url : string) : string :=
  "https://xgd.io/V1/shorten?url=" +:+ url +:+ "&key=" +:+ api_key w.

(** Lines 27-30. *)
Definition urls_to_shorten (sh : sheet) : list coord :=
  filter (λ cell, Py.truthy (Sheet.value sh cell)) (Sheet.iter_rows sh).

(** The [AttributeError] of [response_json.get] (line 49) when the decoded
    body is not a dict. *)
Definition no_attribute_get (body : pyval) : exception :=
  Message ("'" +:+ Py.type_name body +:+ "' object has no attribute 'get'").

(** Lines 44-60: the per-row [try] with its two handlers.  Gives the sheet
    afterwards and the effects, in order.  An assignment that the setter
    refuses (line 51) is caught at line 59 like any other exception: no
    cell is written and the success line is not sent. *)
Definition try_shorten (w : worker) (row : nat) (url : string) (sh : sheet)
  : sheet * list effect :=
  match api w row with
  | RaisesRequestException e =>
      (sh, [HttpGet (api_url w url); LogUpdated (RequestError url e)])
  | RaisesException e =>
      (sh, [HttpGet (api_url w url); LogUpdated (Error url (Message e))])
  | Json (PDict response_json) =>
      if Py.eq_int (Py.get response_json "status" PNone) 200 then
        let short_url := Py.get response_json "shorturl" PNone in
        match Sheet.set_value sh (row, 3) short_url with
        | inr sh' =>
            (sh',
             [HttpGet (api_url w url);
              CellAssigned (row, 3) short_url;
              LogUpdated (Success url short_url)])
        | inl e =>
            (sh, [HttpGet (api_url w url); LogUpdated (Error url e)])
        end
      else
        let error_message := Py.get response_json "error" (PStr "不明なエラー") in
        (sh, [HttpGet (api_url w url); LogUpdated (Failure url error_message)])
  | Json body =>
      (sh, [HttpGet (api_url w url); LogUpdated (Error url (no_attribute_get body))])
  end.


(** The test of line 49 on what the API gave. *)
Definition succeeded (r : api_result) : bool :=
  match r with
  | Json (PDict response_json) => Py.eq_int (Py.get response_json "status" PNone) 200
  | _ => false
  end.

(** How the loop is left: by running out of cells or by [break], or by an
    exception that reaches the outer handlers. *)
Inductive exit :=
| Normal
| Raised (e : exception).

Record loop_state := {
  how : exit;
  book : sheet;
  events : list event
}.

Definition tag (row : nat) (es : list effect) : list event :=
  (λ e, (Some row, e)) <$> es.

(** Lines 37-60: [for i, cell in enumerate(urls_to_shorten)], from index [i]
    on.  [progress_updated] is declared [pyqtSignal(int, str)] (line 11):
    [emit] raises [TypeError] when [url] is not a [str], outside the per-row
    [try]. *)
Fixpoint shorten_rows (w : worker) (total_urls i : nat) (cells : list coord)
    (sh : sheet) : loop_state :=
  match cells with
  | [] => {| how := Normal; book := sh; events := [] |}
  | cell :: rest =>
      if negb (is_running w i) then {| how := Normal; book := sh; events := [] |}
      else
        match Sheet.value sh cell with
        | PStr url =>
            let r := try_shorten w cell.1 url sh in
            let st := shorten_rows w total_urls (S i) rest r.1 in
            {| how := how st;
               book := book st;
               events :=
                 (Some cell.1, ProgressUpdated (Float.percent i total_urls) url)
                   :: tag cell.1 r.2 ++ events st |}
        | v => {| how := Raised (NotAString v); book := sh; events := [] |}
        end
  end.

(** The outcome of a run: the file system afterwards, the workbook object
    as the run left it (when one was loaded), and the trace. *)
Record result := {
  disk : gmap string file;
  memory : option sheet;
  trace : list event
}.

(** [str.lower] on a letter of A-Z; no other character becomes a letter of
    a supported extension. *)
Definition lower (a : ascii) : ascii :=
  let n := nat_of_ascii a in
  if (65 <=? n) && (n <=? 90) then ascii_of_nat (n + 32) else a.

(** Reading a path from its end: the characters after the last dot of the
    last component, when it has a dot. *)
Fixpoint after_last_dot (reversed : list ascii) (acc : list ascii)
  : option (list ascii * list ascii) :=
  match reversed with
  | [] => None
  | a :: before =>
      if Ascii.eqb a "/" then None
      else if Ascii.eqb a "." then Some (acc, before)
      else after_last_dot before (a :: acc)
  end.

(** Whether the last component has a character that is not a dot, read
    from its end. *)
Fixpoint has_name (reversed : list ascii) : bool :=
  match reversed with
  | [] => false
  | a :: before =>
      if Ascii.eqb a "/" then false
      else if Ascii.eqb a "." then has_name before
      else true
  end.

(** [os.path.splitext(path)[-1].lower()], with the separator of
    [posixpath]: the last dot of the last component and what follows it,
    unless only dots precede it there. *)
Definition extension (path : string) : string :=
  match after_last_dot (reverse (String.list_ascii_of_string path)) [] with
  | Some (ext, before) =>
      if has_name before
      then String.string_of_list_ascii ("."%char :: (lower <$> ext))
      else ""
  | None => ""
  end.

(** The test [load_workbook] makes on the name before it opens the file:
    the extension is one of openpyxl's [SUPPORTED_FORMATS]. *)
Definition supported_format (path : string) : bool :=
  bool_decide (extension path ∈ [".xlsx"; ".xlsm"; ".xltx"; ".xltm"]).

(** Lines 21-74.  No file under the name: [load_workbook] raises
    [InvalidFileException] for an unsupported extension before it looks for
    the file, [FileNotFoundError] otherwise. *)
Definition run (w : worker) (fs : gmap string file) : result :=
  match fs !! filepath w with
  | None =>
      if supported_format (filepath w) then
        {| disk := fs; memory := None; trace := [(None, Finished FileNotFound)] |}
      else
        {| disk := fs; memory := None;
           trace := [(None, Finished (Unexpected (UnsupportedFormat (filepath w))))] |}
  | Some (NotAWorkbook e) =>
      {| disk := fs; memory := None;
         trace := [(None, Finished (Unexpected (Message e)))] |}
  | Some (Workbook sh) =>
      let urls := urls_to_shorten sh in
      let total_urls := length urls in
      if (total_urls =? 0)%nat then
        {| disk := fs; memory := Some sh; trace := [(None, Finished NoUrlsFound)] |}
      else
        let st := shorten_rows w total_urls 0 urls sh in
        match how st with
        | Raised e =>
            {| disk := fs; memory := Some (book st);
               trace := events st ++ [(None, Finished (Unexpected e))] |}
        | Normal =>
            if is_running w total_urls then
              match save w with
              | SaveSucceeds =>
                  {| disk := <[filepath w := Workbook (book st)]> fs;
                     memory := Some (book st);
                     trace := events st ++
                       [(None, ProgressUpdated 100 "完了");
                        (None, Saved (filepath w));
                        (None, Finished (Completed (filepath w)))] |}
              | SaveRaisesFileNotFound =>
                  {| disk := fs; memory := Some (book st);
                     trace := events st ++
                       [(None, ProgressUpdated 100 "完了");
                        (None, Finished FileNotFound)] |}
              | SaveRaises e damage =>
                  {| disk := match damage with
                             | Some e' => <[filepath w := NotAWorkbook e']> fs
                             | None => fs
                             end;
                     memory := Some (book st);
                     trace := events st ++
                       [(None, ProgressUpdated 100 "完了");
                        (None, Finished (Unexpected (Message e)))] |}
              end
            else
              {| disk := fs; memory := Some (book st);
                 trace := events st ++
                   [(None, ProgressUpdated 100 "完了");
                    (None, Finished Interrupted)] |}
        end
  end.

(** What [urls_to_shorten] holds: cells of column 2, one per row. *)
Definition url_cells (cells : list coord) : Prop :=
  Forall (λ c : coord, c.2 = 2) cells ∧ NoDup cells.*1.

(** *** Reading a trace *)

Definition progress_values (t : list event) : list Z :=
  omap (λ ev : event, match ev.2 with ProgressUpdated p _ => Some p | _ => None end) t.

Definition terminal_messages (t : list event) : list terminal :=
  omap (λ ev : event, match ev.2 with Finished m => Some m | _ => None end) t.

Definition saves (t : list event) : list string :=
  omap (λ ev : event, match ev.2 with Saved p => Some p | _ => None end) t.

Definition from_row (row : nat) (ev : event) : bool :=
  match ev.1 with Some r => (r =? row)%nat | None => false end.

(** The effects of the iteration for the cell in [row]. *)
Definition row_effects (row : nat) (t : list event) : list effect :=
  omap (λ ev : event, if from_row row ev then Some ev.2 else None) t.

Definition log_lines (es : list effect) : list log_line :=
  omap (λ e, match e with LogUpdated l => Some l | _ => None end) es.

(** The API was asked about the cell in [row]. *)
Definition requested (row : nat) (t : list event) : bool :=
  existsb (λ e, match e with HttpGet _ => true | _ => false end) (row_effects row t).

(** All collected cells hold strings. *)
Definition all_str (sh : sheet) : bool :=
  forallb (λ cell, Py.is_str (Sheet.value sh cell)) (urls_to_shorten sh).


(** The loop gets to the per-row [try] for the collected cell of index [j]:
    the flag is still set when its turn comes, and the cells up to it hold
    strings. *)
Definition reaches (w : worker) (sh : sheet) (j : nat) : bool :=
  is_running w j
  && forallb (λ cell, Py.is_str (Sheet.value sh cell))
       (take (S j) (urls_to_shorten sh)).

End Worker.

(** ** A sample run: the example of the specification *)

Module Example.

Definition urls_xlsx : sheet :=
  {[ (1, 2) := PStr "URL"; (2, 2) := PStr "http://a.com"; (3, 2) := PStr "http://b.com" ]}.

Definition fs : gmap string file := {[ "urls.xlsx" := Workbook urls_xlsx ]}.

Definition ok_1 : pyval :=
  PDict {[ "status" := PInt 200; "shorturl" := PStr "http://x/1" ]}.

Definition bad_url : pyval :=
  PDict {[ "status" := PInt 400; "error" := PStr "bad url" ]}.

Definition w : worker :=
  {| filepath := "urls.xlsx"; api_key := "KEY"; stop_after := None;
     api := λ row, if (row =? 2)%nat then Json ok_1 else Json bad_url;
     save := SaveSucceeds |}.

(** [stop()] takes effect after the first row. *)
Definition w_stopped : worker :=
  {| filepath := "urls.xlsx"; api_key := "KEY"; stop_after := Some 1; api := api w;
     save := SaveSucceeds |}.






(** A sheet with falsy cells between the URLs. *)
Definition gaps_xlsx : sheet :=
  {[ (1, 2) := PStr "URL"; (2, 2) := PInt 0; (3, 2) := PStr "http://a.com";
     (4, 2) := PBool false; (5, 2) := PStr ""; (6, 2) := PStr "http://b.com" ]}.

Definition fs_gaps : gmap string file := {[ "urls.xlsx" := Workbook gaps_xlsx ]}.

(** A sheet with a header and nothing else. *)
Definition header_xlsx : sheet := {[ (1, 2) := PStr "URL" ]}.

Definition fs_header : gmap string file := {[ "urls.xlsx" := Workbook header_xlsx ]}.

End Example.

(** ** More ways to read a trace *)

Module Trace.

(** The URLs passed to [requests.get], in order. *)
Definition requests (t : list event) : list string :=
  omap (λ ev : event, match ev.2 with HttpGet u => Some u | _ => None end) t.

(** The lines sent on [log_updated], in order. *)
Definition lines (t : list event) : list log_line :=
  omap (λ ev : event, match ev.2 with LogUpdated l => Some l | _ => None end) t.

(** The string held by a cell that holds one. *)
Definition str_of (v : pyval) : string :=
  match v with PStr s => s | _ => "" end.

(** The request line 45 builds for a collected cell. *)
Definition request_for (w : worker) (sh : sheet) (cell : coord) : string :=
  Worker.api_url w (str_of (Sheet.value sh cell)).

(** The number of iterations that get past the test of line 38, for a loop
    that starts at index [i] on [n] cells. *)
Definition iterations (w : worker) (i n : nat) : nat :=
  match stop_after w with
  | None => n
  | Some k => (k - i) `min` n
  end.

End Trace.

(** ** The main window (lines 99-164)

    The widgets of [interface.ui] are the fields of a record; a slot is a
    function on it.  [textEdit_log] is the list of its paragraphs. *)

Module Gui.

Inductive paragraph :=
| Notice (text : string)        (* written by the window itself *)
| Line (l : log_line)           (* received on [log_updated] *)
| Closing (m : terminal).       (* received on [finished] *)

(** The [ShortenWorker] held in [self.worker]: the arguments of its
    constructor, its attribute [is_running], and [QThread.isRunning()]. *)
Record thread := {
  job_filepath : string;
  job_api_key : string;
  job_is_running : bool;
  isRunning : bool
}.

Record window := {
  lineEdit_filepath : string;
  textEdit_log : list paragraph;
  pushButton_start : string;
  progressBar : Z;
  label_current_url : string;
  the_worker : option thread
}.

(** [setting.ini] as lines 135-142 see it: missing or unreadable; or read,
    with the value [config.get] gives for [api_key] in section [Settings]
    when it has one; or such that [configparser] raises [e], in
    [config.read] (a malformed file) or in [config.get] (a value with a
    stray %). *)
Inductive settings :=
| NoSettingsFile
| SettingsFile (api_key : option string)
| SettingsRaise (e : string).

(** Lines 15-19 and [QThread.start]. *)
Definition ShortenWorker_started (filepath api_key : string) : thread :=
  {| job_filepath := filepath; job_api_key := api_key;
     job_is_running := true; isRunning := true |}.

(** Lines 76-77. *)
Definition stop (th : thread) : thread :=
  {| job_filepath := job_filepath th; job_api_key := job_api_key th;
     job_is_running := false; isRunning := isRunning th |}.

(** [self.worker and self.worker.isRunning()]. *)
Definition busy (win : window) : bool :=
  match the_worker win with
  | Some th => isRunning th
  | None => false
  end.

Definition set_log (win : window) (log : list paragraph) : window :=
  {| lineEdit_filepath := lineEdit_filepath win; textEdit_log := log;
     pushButton_start := pushButton_start win; progressBar := progressBar win;
     label_current_url := label_current_url win; the_worker := the_worker win |}.

(** Lines 114-118; [chosen] is what the file dialog returns, empty when it
    is dismissed. *)
Definition select_file (win : window) (chosen : string) : window :=
  match chosen with
  | EmptyString => win
  | String _ _ =>
      {| lineEdit_filepath := chosen; textEdit_log := [];
         pushButton_start := pushButton_start win; progressBar := progressBar win;
         label_current_url := label_current_url win; the_worker := the_worker win |}
  end.

(** Lines 124-151: the window when the slot is left.  When [configparser]
    raises, the slot is left by the exception (see
    [start_shortening_raises]) with the window as it was. *)
Definition start_shortening (win : window) (ini : settings) : window :=
  if busy win then
    {| lineEdit_filepath := lineEdit_filepath win; textEdit_log := textEdit_log win;
       pushButton_start := "短縮開始"; progressBar := progressBar win;
       label_current_url := label_current_url win;
       the_worker := stop <$> the_worker win |}
  else
    match lineEdit_filepath win with
    | EmptyString => set_log win [Notice "ファイルを選択してください。"]
    | String _ _ =>
        match ini with
        | NoSettingsFile | SettingsFile None =>
            set_log win
              [Notice "APIキーが設定されていません。[設定]からAPIキーを入力してください。"]
        | SettingsFile (Some EmptyString) =>
            set_log win
              [Notice "APIキーが空です。[設定]からAPIキーを入力してください。"]
        | SettingsFile (Some api_key) =>
            {| lineEdit_filepath := lineEdit_filepath win; textEdit_log := [];
               pushButton_start := "処理中... (クリックして中断)";
               progressBar := progressBar win;
               label_current_url := label_current_url win;
               the_worker :=
                 Some (ShortenWorker_started (lineEdit_filepath win) api_key) |}
        | SettingsRaise _ => win
        end
    end.

(** Lines 124-151: the exception that leaves the slot, if one does.  What
    PyQt then does with it is not part of the slot. *)
Definition start_shortening_raises (win : window) (ini : settings) : option string :=
  if busy win then None
  else
    match lineEdit_filepath win with
    | EmptyString => None
    | String _ _ =>
        match ini with
        | SettingsRaise e => Some e
        | NoSettingsFile | SettingsFile _ => None
        end
    end.

(** Lines 153-155. *)
Definition update_progress (win : window) (value : Z) (url : string) : window :=
  {| lineEdit_filepath := lineEdit_filepath win; textEdit_log := textEdit_log win;
     pushButton_start := pushButton_start win; progressBar := value;
     label_current_url := url; the_worker := the_worker win |}.

(** Lines 157-158. *)
Definition update_log (win : window) (message : paragraph) : window :=
  set_log win (textEdit_log win ++ [message]).

(** Lines 160-164. *)
Definition on_finished (win : window) (message : paragraph) : window :=
  {| lineEdit_filepath := lineEdit_filepath win;
     textEdit_log := textEdit_log win ++ [message];
     pushButton_start := "短縮開始"; progressBar := 100;
     label_current_url := label_current_url win; the_worker := None |}.

(** The connections of lines 148-150: what each effect of the worker does
    to the window.  Only the three signals reach it. *)
Definition deliver (win : window) (e : effect) : window :=
  match e with
  | ProgressUpdated value url => update_progress win value url
  | LogUpdated l => update_log win (Line l)
  | Finished m => on_finished win (Closing m)
  | HttpGet _ | CellAssigned _ _ | Saved _ => win
  end.

(** The signals of a trace, delivered in the order they were sent. *)
Definition deliver_all (win : window) (t : list event) : window :=
  foldl deliver win (snd <$> t).

End Gui.

(** ** More sample inputs *)

Module Sample.

Definition idle : Gui.window :=
  {| Gui.lineEdit_filepath := "urls.xlsx"; Gui.textEdit_log := [Gui.Notice "old"];
     Gui.pushButton_start := "短縮開始"; Gui.progressBar := 0;
     Gui.label_current_url := ""; Gui.the_worker := None |}.

(** [stop()] takes effect after both rows. *)
Definition w_late_stop : worker :=
  {| filepath := "urls.xlsx"; api_key := "KEY"; stop_after := Some 2;
     api := api Example.w; save := SaveSucceeds |}.

(** The API answers with a JSON list. *)
Definition w_list : worker :=
  {| filepath := "urls.xlsx"; api_key := "KEY"; stop_after := None;
     api := λ _, Json (PList []); save := SaveSucceeds |}.





(** The API answers with status 200 and a [shorturl] with a form feed. *)
Definition w_form_feed : worker :=
  {| filepath := "urls.xlsx"; api_key := "KEY"; stop_after := None;
     api := λ _, Json (PDict {[ "status" := PInt 200;
                                "shorturl" := PStr (String "012"%char "x") ]});
     save := SaveSucceeds |}.

(** The file cannot be written: it is open in the spreadsheet program. *)
Definition w_locked : worker :=
  {| filepath := "urls.xlsx"; api_key := "KEY"; stop_after := None;
     api := api Example.w; save := SaveRaises "PermissionError" None |}.

(** The disk fills up while the file is written. *)
Definition w_disk_full : worker :=
  {| filepath := "urls.xlsx"; api_key := "KEY"; stop_after := None;
     api := api Example.w; save := SaveRaises "OSError" (Some "BadZipFile") |}.

(** The directory of the file has gone when the file is to be saved. *)
Definition w_no_directory : worker :=
  {| filepath := "urls.xlsx"; api_key := "KEY"; stop_after := None;
     api := api Example.w; save := SaveRaisesFileNotFound |}.


End Sample.

(** ** Facts about the float model *)

Section FloatFacts.
Import Float.
Local Open Scope Q_scope.

Lemma round_half_even_mono (x y : Q) :
  x <= y → (round_half_even x ≤ round_half_even y)%Z.
Proof.
  intros Hxy. unfold round_half_even.
  pose proof (Qfloor_resp_le _ _ Hxy) as Hf.
  pose proof (Qfloor_le x) as Hx1. pose proof (Qlt_floor x) as Hx2.
  pose proof (Qfloor_le y) as Hy1. pose proof (Qlt_floor y) as Hy2.
  rewrite inject_Z_plus in Hx2, Hy2.
  destruct (Z.eq_dec (Qfloor x) (Qfloor y)) as [E|NE].
  - rewrite <- E in *.
    destruct (Qcompare_spec (x - inject_Z (Qfloor x)) (1 # 2));
      destruct (Qcompare_spec (y - inject_Z (Qfloor x)) (1 # 2));
      destruct (Z.even (Qfloor x)); try lia; exfalso; lra.
  - assert (Qfloor x + 1 ≤ Qfloor y)%Z by lia.
    destruct (Qcompare (x - inject_Z (Qfloor x)) (1 # 2));
      destruct (Qcompare (y - inject_Z (Qfloor y)) (1 # 2));
      destruct (Z.even (Qfloor x)); destruct (Z.even (Qfloor y)); lia.
Qed.

Lemma round_half_even_Z (n : Z) : round_half_even (inject_Z n) = n.
Proof.
  unfold round_half_even. rewrite Qfloor_Z.
  destruct (Qcompare_spec (inject_Z n - inject_Z n) (1 # 2));
    try reflexivity; exfalso; lra.
Qed.

Lemma pow2_pos (e : Z) : 0 < 2 ^ e.
Proof. apply Qpower_0_lt. reflexivity. Qed.

Lemma pow2_add (a b : Z) : 2 ^ (a + b) == 2 ^ a * 2 ^ b.
Proof. apply Qpower_plus. discriminate. Qed.

Lemma pow2_le (a b : Z) : (a ≤ b)%Z → 2 ^ a <= 2 ^ b.
Proof. intros H. apply Qpower_le_compat_l; [exact H | discriminate]. Qed.

Lemma pow2_inject (n : Z) : (0 ≤ n)%Z → inject_Z (2 ^ n) == 2 ^ n.
Proof. intros H. exact (Zpower_Qpower 2 n H). Qed.

Lemma floor_log2_spec (x : Q) :
  0 < x → 2 ^ floor_log2 x <= x ∧ x < 2 ^ (floor_log2 x + 1).
Proof.
  intros Hx. destruct x as [n d]. unfold floor_log2. cbn [Qnum Qden].
  assert (Hn : (0 < n)%Z) by (unfold Qlt in Hx; cbn in Hx; lia).
  set (a := Z.log2 n). set (b := Z.log2 (Z.pos d)).
  pose proof (Z.log2_spec n Hn) as [Ha1 Ha2]. fold a in Ha1, Ha2.
  pose proof (Z.log2_spec (Z.pos d) eq_refl) as [Hb1 Hb2]. fold b in Hb1, Hb2.
  assert (Ha0 : (0 ≤ a)%Z) by apply Z.log2_nonneg.
  assert (Hb0 : (0 ≤ b)%Z) by apply Z.log2_nonneg.
  assert (Hd : 0 < inject_Z (Z.pos d)) by reflexivity.
  assert (Hxd : (n # d) * inject_Z (Z.pos d) == inject_Z n).
  { rewrite (Qmake_Qdiv n d). field. intros E. rewrite E in Hd. discriminate. }
  assert (Qa1 : 2 ^ a <= inject_Z n).
  { rewrite <- pow2_inject by exact Ha0. rewrite <- Zle_Qle. exact Ha1. }
  assert (Qa2 : inject_Z n < 2 ^ (a + 1)).
  { rewrite <- pow2_inject by lia. rewrite <- Zlt_Qlt. exact Ha2. }
  assert (Qb1 : 2 ^ b <= inject_Z (Z.pos d)).
  { rewrite <- pow2_inject by exact Hb0. rewrite <- Zle_Qle. exact Hb1. }
  assert (Qb2 : inject_Z (Z.pos d) < 2 ^ (b + 1)).
  { rewrite <- pow2_inject by lia. rewrite <- Zlt_Qlt. exact Hb2. }
  assert (Eu : 2 ^ (a + 1) == 2 ^ (a - b + 1) * 2 ^ b).
  { rewrite <- pow2_add. replace (a - b + 1 + b)%Z with (a + 1)%Z by lia. reflexivity. }
  assert (El : 2 ^ a == 2 ^ (a - b - 1) * 2 ^ (b + 1)).
  { rewrite <- pow2_add. replace (a - b - 1 + (b + 1))%Z with a by lia. reflexivity. }
  pose proof (pow2_pos (a - b + 1)) as Pu. pose proof (pow2_pos (a - b - 1)) as Pl.
  pose proof (pow2_pos b) as Pb.
  assert (Hup : (n # d) < 2 ^ (a - b + 1)).
  { apply Qnot_le_lt. intros Hc.
    assert (2 ^ (a - b + 1) * 2 ^ b <= (n # d) * inject_Z (Z.pos d)).
    { apply Qmult_le_compat_nonneg; split; lra. }
    lra. }
  assert (Hlo : 2 ^ (a - b - 1) <= (n # d)).
  { apply Qnot_lt_le. intros Hc.
    assert ((n # d) * inject_Z (Z.pos d) < 2 ^ (a - b - 1) * 2 ^ (b + 1)).
    { apply Qmult_lt_compat_nonneg; split; lra. }
    lra. }
  destruct (Qle_bool (2 ^ (a - b)) (n # d)) eqn:Hc.
  - apply Qle_bool_iff in Hc. split; [exact Hc | exact Hup].
  - split; [exact Hlo |].
    replace (a - b - 1 + 1)%Z with (a - b)%Z by lia.
    apply Qnot_le_lt. intros Hc'. apply Qle_bool_iff in Hc'. congruence.
Qed.

Lemma floor_log2_mono (x y : Q) :
  0 < x → x <= y → (floor_log2 x ≤ floor_log2 y)%Z.
Proof.
  intros Hx Hxy.
  destruct (floor_log2_spec x Hx) as [Hx1 _].
  destruct (floor_log2_spec y) as [_ Hy2]; [lra |].
  assert (H : 2 ^ floor_log2 x < 2 ^ (floor_log2 y + 1)) by lra.
  apply Qpower_lt_compat_l_inv in H; [lia | reflexivity].
Qed.

(** The significand of a positive number lies between 2^52 and 2^53. *)
Lemma significand_bounds (x : Q) :
  0 < x →
  let e := (floor_log2 x - 52)%Z in
  (2 ^ 52 ≤ round_half_even (x / 2 ^ e) ≤ 2 ^ 53)%Z.
Proof.
  intros Hx e. destruct (floor_log2_spec x Hx) as [H1 H2].
  pose proof (pow2_pos e) as Pe.
  assert (E1 : 2 ^ floor_log2 x == inject_Z (2 ^ 52) * 2 ^ e).
  { rewrite pow2_inject by lia. rewrite <- pow2_add. unfold e.
    replace (52 + (floor_log2 x - 52))%Z with (floor_log2 x) by lia. reflexivity. }
  assert (E2 : 2 ^ (floor_log2 x + 1) == inject_Z (2 ^ 53) * 2 ^ e).
  { rewrite pow2_inject by lia. rewrite <- pow2_add. unfold e.
    replace (53 + (floor_log2 x - 52))%Z with (floor_log2 x + 1)%Z by lia. reflexivity. }
  split.
  - rewrite <- (round_half_even_Z (2 ^ 52)) at 1. apply round_half_even_mono.
    apply Qle_shift_div_l; [exact Pe | lra].
  - rewrite <- (round_half_even_Z (2 ^ 53)) at 1. apply round_half_even_mono.
    apply Qle_shift_div_r; [exact Pe | lra].
Qed.

(** Rounding to binary64 is monotone. *)
Lemma round_binary64_mono (x y : Q) :
  x <= y → round_binary64 x <= round_binary64 y.
Proof.
  intros Hxy. unfold round_binary64.
  destruct (Qle_bool x 0) eqn:Hx0.
  - destruct (Qle_bool y 0) eqn:Hy0; [lra |].
    assert (Hy : 0 < y).
    { apply Qnot_le_lt. intros Hc. apply Qle_bool_iff in Hc. congruence. }
    pose proof (significand_bounds y Hy) as [Hs _]. cbv zeta in Hs.
    apply Qmult_le_0_compat; [| apply Qlt_le_weak, pow2_pos].
    change 0 with (inject_Z 0). rewrite <- Zle_Qle. lia.
  - assert (Hx : 0 < x).
    { apply Qnot_le_lt. intros Hc. apply Qle_bool_iff in Hc. congruence. }
    assert (Hy : 0 < y) by lra.
    destruct (Qle_bool y 0) eqn:Hy0; [apply Qle_bool_iff in Hy0; lra |].
    pose proof (floor_log2_mono x y Hx Hxy) as Hl.
    pose proof (significand_bounds x Hx) as [_ Hsx].
    pose proof (significand_bounds y Hy) as [Hsy _]. cbv zeta in Hsx, Hsy.
    set (ex := (floor_log2 x - 52)%Z) in *. set (ey := (floor_log2 y - 52)%Z) in *.
    pose proof (pow2_pos ex) as Pex. pose proof (pow2_pos ey) as Pey.
    destruct (Z.eq_dec ex ey) as [E|NE].
    + rewrite <- E. apply Qmult_le_compat_r; [| lra].
      rewrite <- Zle_Qle. apply round_half_even_mono.
      apply Qmult_le_compat_r; [exact Hxy |].
      apply Qlt_le_weak, Qinv_lt_0_compat, Pex.
    + assert (Hlt : (ex + 1 ≤ ey)%Z) by lia.
      apply Qle_trans with (inject_Z (2 ^ 53) * 2 ^ ex).
      { apply Qmult_le_compat_r; [| lra]. rewrite <- Zle_Qle. exact Hsx. }
      apply Qle_trans with (inject_Z (2 ^ 52) * 2 ^ ey).
      { rewrite !pow2_inject by lia. rewrite <- !pow2_add. apply pow2_le. lia. }
      apply Qmult_le_compat_r; [| lra]. rewrite <- Zle_Qle. exact Hsy.
Qed.

Lemma times_100_mono (x y : Q) : x <= y → times_100 x <= times_100 y.
Proof.
  intros H. apply round_binary64_mono, Qmult_le_compat_r; [exact H | discriminate].
Qed.

Lemma true_div_mono (i j n : nat) : (i ≤ j)%nat → true_div i n <= true_div j n.
Proof.
  intros Hij. apply round_binary64_mono, Qmult_le_compat_r.
  - rewrite <- Zle_Qle. lia.
  - apply Qinv_le_0_compat. change 0 with (inject_Z 0). rewrite <- Zle_Qle. lia.
Qed.

Lemma true_div_le_1 (i n : nat) : (i ≤ n)%nat → true_div i n <= round_binary64 1.
Proof.
  intros Hi. apply round_binary64_mono. destruct n as [|n].
  - assert (i = 0)%nat as -> by lia. discriminate.
  - apply Qle_shift_div_r; [reflexivity |]. rewrite Qmult_1_l, <- Zle_Qle. lia.
Qed.

Lemma percent_mono (i j total : nat) :
  (i ≤ j)%nat → (percent i total ≤ percent j total)%Z.
Proof.
  intros Hij. apply Qfloor_resp_le, times_100_mono, true_div_mono, Hij.
Qed.

Lemma percent_le_100 (i total : nat) :
  (i ≤ total)%nat → (percent i total ≤ 100)%Z.
Proof.
  intros Hi. unfold percent.
  change 100%Z with (Qfloor (times_100 (round_binary64 1))).
  apply Qfloor_resp_le, times_100_mono, true_div_le_1, Hi.
Qed.

End FloatFacts.

(** ** Facts about the worksheet and the collected cells *)

Section SheetFacts.
Import Sheet Worker.

Lemma max_row_ge (sh : sheet) (c : coord) (v : pyval) :
  sh !! c = Some v → c.1 ≤ max_row sh.
Proof.
  intros H. unfold max_row. etrans; [| apply Nat.le_max_r].
  apply max_list_elem_of_le, list_elem_of_fmap.
  exists (c, v). split; [done |]. by apply elem_of_map_to_list.
Qed.

Lemma truthy_is_Some (sh : sheet) (c : coord) :
  Py.truthy (value sh c) = true → is_Some (sh !! c).
Proof. unfold value. destruct (sh !! c); simpl; [eauto | discriminate]. Qed.

(** Lines 27-30: a cell is collected exactly when it lies in column 2, in a
    row from 2 on, and its value is truthy. *)
Lemma elem_of_urls_to_shorten (sh : sheet) (c : coord) :
  c ∈ urls_to_shorten sh ↔ c.2 = 2 ∧ 2 ≤ c.1 ∧ Py.truthy (value sh c) = true.
Proof.
  unfold urls_to_shorten, iter_rows. rewrite list_elem_of_filter, list_elem_of_fmap.
  split.
  - intros [Ht (r & -> & Hr)]. apply elem_of_seq in Hr. simpl.
    split; [done |]. split; [lia |]. by apply Is_true_true.
  - intros (Hc & Hr & Ht). split; [by apply Is_true_true |].
    exists c.1. split; [destruct c; simpl in *; congruence |].
    apply elem_of_seq. destruct (truthy_is_Some _ _ Ht) as [v Hv].
    pose proof (max_row_ge _ _ _ Hv). lia.
Qed.

Lemma url_cells_urls_to_shorten (sh : sheet) : url_cells (urls_to_shorten sh).
Proof.
  split.
  - apply Forall_forall. intros c Hc. by apply elem_of_urls_to_shorten in Hc as [? _].
  - apply NoDup_fmap_2_strong.
    + intros [r1 c1] [r2 c2] H1 H2. simpl. intros ->.
      apply elem_of_urls_to_shorten in H1 as [? _].
      apply elem_of_urls_to_shorten in H2 as [? _]. simpl in *. congruence.
    + unfold urls_to_shorten, iter_rows. apply NoDup_filter, NoDup_fmap_2, NoDup_seq.
      intros ? ?. congruence.
Qed.

Lemma url_cells_cons (cell : coord) (rest : list coord) :
  url_cells (cell :: rest) → cell.2 = 2 ∧ (cell.1 ∉ rest.*1) ∧ url_cells rest.
Proof.
  intros [Hc Hn]. apply Forall_cons in Hc as [? ?]. rewrite fmap_cons in Hn.
  apply NoDup_cons in Hn as [? ?]. by repeat split.
Qed.

End SheetFacts.

(** ** Facts about one iteration and about the loop *)

(** The ways through the per-row [try]: those that are closed at once are
    the ones that leave the sheet as it is. *)
Ltac try_shorten_cases w row :=
  unfold Worker.try_shorten, Sheet.set_value;
  destruct (api w row) as [?|?|[]]; simpl; try done;
  destruct (Py.eq_int _ _); simpl; try done;
  destruct (Sheet.bind_value _); simpl; try done.

Section LoopFacts.
Import Sheet Worker.
Context (w : worker).

Lemma try_shorten_frame (row : nat) (url : string) (sh : sheet) (c : coord) :
  c ≠ (row, 3) → (try_shorten w row url sh).1 !! c = sh !! c.
Proof.
  intros Hc. try_shorten_cases w row. by rewrite lookup_insert_ne.
Qed.

Lemma try_shorten_effects (row : nat) (url : string) (sh sh' : sheet) :
  (try_shorten w row url sh).2 = (try_shorten w row url sh').2.
Proof. try_shorten_cases w row. Qed.

Lemma try_shorten_cell (row : nat) (url : string) (sh sh' : sheet) :
  sh !! (row, 3) = sh' !! (row, 3) →
  (try_shorten w row url sh).1 !! (row, 3) = (try_shorten w row url sh').1 !! (row, 3).
Proof.
  intros H. try_shorten_cases w row. by rewrite !lookup_insert_eq.
Qed.

(** The three ways an iteration can go: [break], [TypeError] at [emit], or
    the body runs and the loop goes on with the next cell. *)
Lemma shorten_rows_cons (total i : nat) (cell : coord) (rest : list coord) (sh : sheet) :
  (is_running w i = false ∧
   shorten_rows w total i (cell :: rest) sh = {| how := Normal; book := sh; events := [] |})
  ∨ (is_running w i = true ∧ Py.is_str (value sh cell) = false ∧
     shorten_rows w total i (cell :: rest) sh =
       {| how := Raised (NotAString (value sh cell)); book := sh; events := [] |})
  ∨ (is_running w i = true ∧ ∃ url, value sh cell = PStr url ∧
     shorten_rows w total i (cell :: rest) sh =
       let r := try_shorten w cell.1 url sh in
       let st := shorten_rows w total (S i) rest r.1 in
       {| how := how st; book := book st;
          events := (Some cell.1, ProgressUpdated (Float.percent i total) url)
                      :: tag cell.1 r.2 ++ events st |}).
Proof.
  simpl. destruct (is_running w i); simpl; [| by left].
  right. destruct (value sh cell) eqn:Hv; simpl; try (by left).
  right. split; [done |]. by eexists.
Qed.

Lemma row_effects_app (row : nat) (t1 t2 : list event) :
  row_effects row (t1 ++ t2) = row_effects row t1 ++ row_effects row t2.
Proof. apply omap_app. Qed.

Lemma row_effects_tag (row : nat) (es : list effect) :
  row_effects row (tag row es) = es.
Proof.
  unfold row_effects, tag, from_row. induction es as [|e es IH]; [done |].
  simpl. rewrite Nat.eqb_refl. simpl. by f_equal.
Qed.

Lemma row_effects_other (row : nat) (t : list event) :
  (∀ ev, ev ∈ t → ev.1 ≠ Some row) → row_effects row t = [].
Proof.
  unfold row_effects. induction t as [|ev t IH]; intros H; [done |].
  cbn. assert (from_row row ev = false) as ->.
  { unfold from_row. destruct ev.1 as [r|] eqn:E; [| done].
    apply Nat.eqb_neq. intros ->. eapply H; [left | done]. }
  cbn. apply IH. intros ev' Hev'. apply H. by right.
Qed.

Lemma elem_of_tag (row : nat) (es : list effect) (ev : event) :
  ev ∈ tag row es → ev.1 = Some row.
Proof. unfold tag. intros (e & -> & _)%list_elem_of_fmap. done. Qed.

(** Every event of the loop comes from the iteration of one of its cells. *)
Lemma loop_origins (total : nat) (cells : list coord) :
  ∀ i sh ev, ev ∈ events (shorten_rows w total i cells sh) →
    ∃ c, c ∈ cells ∧ ev.1 = Some c.1.
Proof.
  induction cells as [|cell rest IH]; intros i sh ev.
  - simpl. by intros ?%elem_of_nil.
  - destruct (shorten_rows_cons total i cell rest sh)
      as [[_ ->] | [(_ & _ & ->) | (_ & url & _ & ->)]]; simpl;
      try (by intros ?%elem_of_nil).
    intros [-> | [H | H]%elem_of_app]%elem_of_cons.
    + exists cell. split; [left | done].
    + exists cell. split; [left | by eapply elem_of_tag].
    + destruct (IH _ _ _ H) as (c & ? & ?). exists c. split; [by right | done].
Qed.

Lemma loop_row_effects_other (total : nat) (cells : list coord) (i : nat)
    (sh : sheet) (row : nat) :
  row ∉ cells.*1 → row_effects row (events (shorten_rows w total i cells sh)) = [].
Proof.
  intros Hrow. apply row_effects_other. intros ev Hev.
  destruct (loop_origins _ _ _ _ _ Hev) as (c & Hc & ->). intros [= <-].
  apply Hrow, list_elem_of_fmap. by exists c.
Qed.

(** The loop assigns only to column 3 of the rows of its cells. *)
Lemma loop_frame (total : nat) (cells : list coord) :
  ∀ i sh (c : coord), c.1 ∉ cells.*1 ∨ c.2 ≠ 3 →
    book (shorten_rows w total i cells sh) !! c = sh !! c.
Proof.
  induction cells as [|cell rest IH]; intros i sh c Hc; [done |].
  destruct (shorten_rows_cons total i cell rest sh)
    as [[_ ->] | [(_ & _ & ->) | (_ & url & _ & ->)]]; simpl; try done.
  rewrite IH.
  - apply try_shorten_frame. intros ->. destruct Hc as [Hc | Hc]; [| done].
    apply Hc. left.
  - destruct Hc as [Hc | Hc]; [left | by right]. intros H. apply Hc. by right.
Qed.

Lemma row_effects_cons_same (row : nat) (e : effect) (t : list event) :
  row_effects row ((Some row, e) :: t) = e :: row_effects row t.
Proof. unfold row_effects, from_row. simpl. by rewrite Nat.eqb_refl. Qed.

Lemma row_effects_cons_other (row r : nat) (e : effect) (t : list event) :
  r ≠ row → row_effects row ((Some r, e) :: t) = row_effects row t.
Proof.
  intros H. unfold row_effects, from_row. simpl.
  by apply Nat.eqb_neq in H as ->.
Qed.

Lemma row_effects_tag_other (row r : nat) (es : list effect) :
  r ≠ row → row_effects row (tag r es) = [].
Proof.
  intros H. apply row_effects_other. intros ev Hev%elem_of_tag. congruence.
Qed.

Lemma is_running_earlier (i j : nat) :
  i ≤ j → is_running w j = true → is_running w i = true.
Proof.
  unfold is_running. destruct (stop_after w) as [k|]; [| done].
  rewrite !Nat.ltb_lt. lia.
Qed.

(** What the loop did for a row about which the API was asked: the
    iteration ran from [emit] to the end of the [try], on a sheet that still
    had the row's cells as they were loaded. *)
Lemma loop_requested (total row : nat) (cells : list coord) :
  ∀ i sh, url_cells cells →
    requested row (events (shorten_rows w total i cells sh)) = true →
    ∃ j url,
      cells !! j = Some (row, 2) ∧ is_running w (i + j) = true ∧
      value sh (row, 2) = PStr url ∧
      row_effects row (events (shorten_rows w total i cells sh)) =
        ProgressUpdated (Float.percent (i + j) total) url
          :: (try_shorten w row url sh).2 ∧
      book (shorten_rows w total i cells sh) !! (row, 3) =
        (try_shorten w row url sh).1 !! (row, 3).
Proof.
  induction cells as [|cell rest IH]; intros i sh Hcells; [done |].
  apply url_cells_cons in Hcells as (Hcol & Hfresh & Hrest).
  destruct (shorten_rows_cons total i cell rest sh)
    as [[_ ->] | [(_ & _ & ->) | (Hrun & url & Hurl & ->)]];
    cbv zeta; cbn [how book events]; try done.
  destruct cell as [r k]. cbn [fst snd] in *. subst k.
  destruct (decide (r = row)) as [-> | Hne].
  - intros _. exists 0, url. rewrite Nat.add_0_r.
    rewrite row_effects_cons_same, row_effects_app, row_effects_tag,
      (loop_row_effects_other _ _ _ _ _ Hfresh), app_nil_r.
    repeat split; try done.
    apply loop_frame. by left.
  - unfold requested.
    rewrite row_effects_cons_other, row_effects_app, row_effects_tag_other by done.
    simpl. intros Hreq. destruct (IH (S i) _ Hrest Hreq) as (j & url' & Hj & Hr & Hv & He & Hb).
    exists (S j), url'. replace (i + S j) with (S i + j) by lia.
    assert (Hv' : value sh (row, 2) = PStr url').
    { rewrite <- Hv. unfold value. by rewrite try_shorten_frame. }
    repeat split; try done.
    + rewrite He. f_equal. apply try_shorten_effects.
    + rewrite Hb. apply try_shorten_cell, try_shorten_frame. congruence.
Qed.

(** The loop neither saves nor sends a terminal message. *)
Lemma loop_inner_effects (total : nat) (cells : list coord) :
  ∀ i sh, saves (events (shorten_rows w total i cells sh)) = [] ∧
          terminal_messages (events (shorten_rows w total i cells sh)) = [].
Proof.
  induction cells as [|cell rest IH]; intros i sh; [done |].
  destruct (shorten_rows_cons total i cell rest sh)
    as [[_ ->] | [(_ & _ & ->) | (_ & url & _ & ->)]]; simpl; try done.
  destruct (IH (S i) (try_shorten w cell.1 url sh).1) as [IH1 IH2].
  unfold saves, terminal_messages in *. cbn [omap list_omap snd].
  rewrite !omap_app, IH1, IH2, !app_nil_r.
  try_shorten_cases w (cell.1).
Qed.

(** What the [try] assigns, and only when the response was a success and
    the setter took the value. *)
Lemma try_shorten_assigned (row : nat) (url : string) (sh : sheet) (c : coord) (v : pyval) :
  CellAssigned c v ∈ (try_shorten w row url sh).2 →
  c = (row, 3) ∧
  (∃ stored, bind_value v = inr stored ∧
             (try_shorten w row url sh).1 !! c = Some stored) ∧
  ∃ d, api w row = Json (PDict d) ∧
       Py.eq_int (Py.get d "status" PNone) 200 = true ∧ v = Py.get d "shorturl" PNone.
Proof.
  unfold try_shorten, set_value. destruct (api w row) as [e|e|[]]; simpl;
    try (intros H; decompose_list_elem_of; discriminate).
  destruct (Py.eq_int _ _) eqn:Hs; simpl;
    [destruct (bind_value _) as [e | stored] eqn:Hb; simpl |];
    intros H; decompose_list_elem_of; try discriminate.
  match goal with H : CellAssigned _ _ = CellAssigned _ _ |- _ => injection H as -> -> end.
  split; [done |]. split; [| by eexists].
  exists stored. split; [done | apply lookup_insert_eq].
Qed.

Lemma try_shorten_failed (row : nat) (url : string) (sh : sheet) :
  succeeded (api w row) = false → (try_shorten w row url sh).1 = sh.
Proof.
  unfold succeeded, try_shorten. destruct (api w row) as [e|e|[]]; try done.
  by intros ->.
Qed.

Lemma try_shorten_no_progress (row : nat) (url : string) (sh : sheet) :
  progress_values (tag row (try_shorten w row url sh).2) = [].
Proof.
  try_shorten_cases w row.
Qed.


(** Every assignment of the loop is to column 3 of the row being processed,
    after a response with status 200, and stores its [shorturl]. *)
Lemma loop_assigned (total : nat) (cells : list coord) :
  ∀ i sh o c v,
    (o, CellAssigned c v) ∈ events (shorten_rows w total i cells sh) →
    o = Some c.1 ∧ c.2 = 3 ∧
    ∃ d, api w c.1 = Json (PDict d) ∧
         Py.eq_int (Py.get d "status" PNone) 200 = true ∧ v = Py.get d "shorturl" PNone.
Proof.
  induction cells as [|cell rest IH]; intros i sh o c v.
  - simpl. by intros ?%elem_of_nil.
  - destruct (shorten_rows_cons total i cell rest sh)
      as [[_ ->] | [(_ & _ & ->) | (_ & url & _ & ->)]]; simpl;
      try (by intros ?%elem_of_nil).
    intros [[=] | [H | H]%elem_of_app]%elem_of_cons.
    + unfold tag in H. apply list_elem_of_fmap in H as (e & [= -> <-] & H).
      by apply try_shorten_assigned in H as (-> & _ & H).
    + by eapply IH.
Qed.

(** A cell is as it was loaded unless it lies in column 3 of a row whose
    response was a success. *)
Lemma loop_unchanged (total : nat) (cells : list coord) :
  ∀ i sh (c : coord), succeeded (api w c.1) = false ∨ c.2 ≠ 3 →
    book (shorten_rows w total i cells sh) !! c = sh !! c.
Proof.
  induction cells as [|cell rest IH]; intros i sh c Hc; [done |].
  destruct (shorten_rows_cons total i cell rest sh)
    as [[_ ->] | [(_ & _ & ->) | (_ & url & _ & ->)]]; simpl; try done.
  rewrite IH by done.
  destruct (decide (c = (cell.1, 3))) as [-> | Hne].
  - destruct Hc as [Hc | Hc]; [| done]. by rewrite try_shorten_failed.
  - by apply try_shorten_frame.
Qed.

(** The cells of column 2 are never assigned to: the URL read at line 41 is
    the one that was loaded. *)
Lemma try_shorten_url (row : nat) (url : string) (sh : sheet) (c : coord) :
  c.2 = 2 → value (try_shorten w row url sh).1 c = value sh c.
Proof.
  intros Hc. unfold value. rewrite try_shorten_frame; [done |].
  intros ->. discriminate.
Qed.

(** With no cancellation and only strings in the collected cells, the loop
    runs to its end and reports each index once. *)
Lemma loop_all_str (total : nat) (cells : list coord) :
  stop_after w = None →
  ∀ i sh, Forall (λ c : coord, c.2 = 2) cells →
    (∀ c, c ∈ cells → Py.is_str (value sh c) = true) →
    how (shorten_rows w total i cells sh) = Normal ∧
    progress_values (events (shorten_rows w total i cells sh)) =
      (λ k, Float.percent k total) <$> seq i (length cells).
Proof.
  intros Hstop. induction cells as [|cell rest IH]; intros i sh Hcol Hstr; [done |].
  apply Forall_cons in Hcol as [Hcol Hcols].
  assert (Hrun : is_running w i = true) by (unfold is_running; by rewrite Hstop).
  destruct (shorten_rows_cons total i cell rest sh)
    as [[? _] | [(_ & Hn & _) | (_ & url & Hurl & ->)]]; [congruence | |].
  { rewrite Hstr in Hn; [done | left]. }
  cbv zeta. cbn [how book events].
  destruct (IH (S i) (try_shorten w cell.1 url sh).1 Hcols) as [IH1 IH2].
  { intros c Hc. rewrite try_shorten_url.
    - apply Hstr. by right.
    - by eapply Forall_forall in Hcols. }
  split; [done |].
  unfold progress_values in *. cbn [omap list_omap snd length seq fmap list_fmap].
  rewrite omap_app, IH2. f_equal.
  change (omap _ (tag cell.1 (try_shorten w cell.1 url sh).2))
    with (progress_values (tag cell.1 (try_shorten w cell.1 url sh).2)).
  by rewrite try_shorten_no_progress.
Qed.


End LoopFacts.

(** ** Facts about a whole run *)

Section RunFacts.
Import Sheet Worker.
Context (w : worker) (fs : gmap string file).

(** A run on a workbook: what the loop left, then events from outside the
    loop. *)
Lemma run_loaded (sh : sheet) :
  fs !! filepath w = Some (Workbook sh) →
  let urls := urls_to_shorten sh in
  let st := shorten_rows w (length urls) 0 urls sh in
  memory (run w fs) = Some (book st) ∧
  ∃ tail, trace (run w fs) = events st ++ tail ∧
          Forall (λ ev : event, ev.1 = None ∧
                    ∀ c v, ev.2 ≠ CellAssigned c v) tail.
Proof.
  intros Hfs urls st. unfold run. rewrite Hfs. fold urls.
  destruct (length urls =? 0) eqn:Hlen.
  - apply Nat.eqb_eq, nil_length_inv in Hlen. subst st. rewrite Hlen. simpl.
    split; [done |]. eexists. split; [done |]. by repeat constructor.
  - fold st.
    destruct (how st);
      [destruct (is_running w (length urls)); [destruct (save w) as [| | ? [?|]] |] |];
      simpl; (split; [done |]); eexists; (split; [done |]); by repeat constructor.
Qed.

Lemma run_row_effects (sh : sheet) (row : nat) :
  fs !! filepath w = Some (Workbook sh) →
  let urls := urls_to_shorten sh in
  row_effects row (trace (run w fs)) =
    row_effects row (events (shorten_rows w (length urls) 0 urls sh)).
Proof.
  intros Hfs urls. destruct (run_loaded sh Hfs) as (_ & tail & -> & Htail).
  rewrite row_effects_app, (row_effects_other row tail), app_nil_r; [done |].
  intros ev Hev. eapply Forall_forall in Htail as [Htail _]; [| done].
  by rewrite Htail.
Qed.

(** What a run did for a row about which the API was asked. *)
Lemma run_requested (sh : sheet) (row : nat) :
  fs !! filepath w = Some (Workbook sh) →
  requested row (trace (run w fs)) = true →
  ∃ j url final,
    urls_to_shorten sh !! j = Some (row, 2) ∧ is_running w j = true ∧
    value sh (row, 2) = PStr url ∧
    memory (run w fs) = Some final ∧
    row_effects row (trace (run w fs)) =
      ProgressUpdated (Float.percent j (length (urls_to_shorten sh))) url
        :: (try_shorten w row url sh).2 ∧
    final !! (row, 3) = (try_shorten w row url sh).1 !! (row, 3).
Proof.
  intros Hfs. unfold requested. rewrite (run_row_effects sh row Hfs).
  intros Hreq.
  destruct (loop_requested w _ row _ 0 sh (url_cells_urls_to_shorten sh) Hreq)
    as (j & url & Hj & Hrun & Hv & He & Hb).
  destruct (run_loaded sh Hfs) as (Hm & _).
  exists j, url, (book (shorten_rows w (length (urls_to_shorten sh)) 0 (urls_to_shorten sh) sh)).
  by repeat split.
Qed.

End RunFacts.

(** ** More facts about the loop and the run *)

Section WorkerFacts.
Import Sheet Worker Trace.
Context (w : worker).

(** Every run ends by sending a terminal message, and sends none before. *)
Lemma run_trace_shape (fs : gmap string file) :
  ∃ body m, trace (run w fs) = body ++ [(None, Finished m)] ∧
            terminal_messages body = [].
Proof.
  unfold run. destruct (fs !! filepath w) as [[sh | e] |] eqn:Hfs.
  - destruct (length (urls_to_shorten sh) =? 0).
    { by exists [], NoUrlsFound. }
    set (st := shorten_rows w _ 0 _ sh).
    destruct (loop_inner_effects w (length (urls_to_shorten sh))
                (urls_to_shorten sh) 0 sh) as [_ Hterm]. fold st in Hterm.
    destruct (how st) as [| e];
      [destruct (is_running w _); [destruct (save w) as [| | e0 [e' |]] |] |]; simpl.
    + exists (events st ++ [(None, ProgressUpdated 100 "完了"); (None, Saved (filepath w))]),
        (Completed (filepath w)).
      split; [by rewrite <- app_assoc |].
      unfold terminal_messages in *. by rewrite omap_app, Hterm.
    + exists (events st ++ [(None, ProgressUpdated 100 "完了")]), FileNotFound.
      split; [by rewrite <- app_assoc |].
      unfold terminal_messages in *. by rewrite omap_app, Hterm.
    + exists (events st ++ [(None, ProgressUpdated 100 "完了")]), (Unexpected (Message e0)).
      split; [by rewrite <- app_assoc |].
      unfold terminal_messages in *. by rewrite omap_app, Hterm.
    + exists (events st ++ [(None, ProgressUpdated 100 "完了")]), (Unexpected (Message e0)).
      split; [by rewrite <- app_assoc |].
      unfold terminal_messages in *. by rewrite omap_app, Hterm.
    + exists (events st ++ [(None, ProgressUpdated 100 "完了")]), Interrupted.
      split; [by rewrite <- app_assoc |].
      unfold terminal_messages in *. by rewrite omap_app, Hterm.
    + by exists (events st), (Unexpected e).
  - by exists [], (Unexpected (Message e)).
  - destruct (supported_format (filepath w)).
    + by exists [], FileNotFound.
    + by exists [], (Unexpected (UnsupportedFormat (filepath w))).
Qed.

Lemma progress_values_iteration (row : nat) (p : Z) (url : string) (sh : sheet)
    (t : list event) :
  progress_values
    ((Some row, ProgressUpdated p url) :: tag row (try_shorten w row url sh).2 ++ t) =
  p :: progress_values t.
Proof.
  unfold progress_values. cbn [omap list_omap snd]. rewrite omap_app. f_equal.
  change (omap _ (tag row (try_shorten w row url sh).2))
    with (progress_values (tag row (try_shorten w row url sh).2)).
  by rewrite try_shorten_no_progress.
Qed.

Lemma percent_0 (total : nat) : Float.percent 0 total = 0%Z.
Proof. by vm_compute. Qed.

(** The percentages the loop reports are those of indices below
    [total]. *)
Lemma loop_progress_range (total : nat) (cells : list coord) :
  ∀ i sh, i + length cells ≤ total →
    Forall (λ p, (0 ≤ p ≤ 100)%Z)
      (progress_values (events (shorten_rows w total i cells sh))).
Proof.
  induction cells as [|cell rest IH]; intros i sh Hlen; [constructor |].
  simpl in Hlen.
  destruct (shorten_rows_cons w total i cell rest sh)
    as [[_ ->] | [(_ & _ & ->) | (_ & url & _ & ->)]];
    cbv zeta; cbn [how book events]; [apply Forall_nil_2 .. |].
  rewrite progress_values_iteration. constructor.
  - split.
    + rewrite <- (percent_0 total). apply percent_mono. lia.
    + apply percent_le_100. lia.
  - apply IH. lia.
Qed.

Lemma try_shorten_requests (row : nat) (url : string) (sh : sheet) :
  requests (tag row (try_shorten w row url sh).2) = [api_url w url].
Proof.
  try_shorten_cases w row.
Qed.

Lemma try_shorten_lines (row : nat) (url : string) (sh : sheet) :
  length (lines (tag row (try_shorten w row url sh).2)) = 1.
Proof.
  try_shorten_cases w row.
Qed.

Lemma requests_iteration (row : nat) (p : Z) (url : string) (sh : sheet)
    (t : list event) :
  requests
    ((Some row, ProgressUpdated p url) :: tag row (try_shorten w row url sh).2 ++ t) =
  api_url w url :: requests t.
Proof.
  unfold requests. cbn [omap list_omap snd]. rewrite omap_app.
  change (omap _ (tag row (try_shorten w row url sh).2))
    with (requests (tag row (try_shorten w row url sh).2)).
  by rewrite try_shorten_requests.
Qed.

Lemma lines_iteration (row : nat) (p : Z) (url : string) (sh : sheet)
    (t : list event) :
  length (lines
    ((Some row, ProgressUpdated p url) :: tag row (try_shorten w row url sh).2 ++ t)) =
  S (length (lines t)).
Proof.
  unfold lines. cbn [omap list_omap snd]. rewrite omap_app, length_app.
  change (omap _ (tag row (try_shorten w row url sh).2))
    with (lines (tag row (try_shorten w row url sh).2)).
  by rewrite try_shorten_lines.
Qed.

Lemma iterations_stop (i n : nat) :
  is_running w i = false → iterations w i n = 0.
Proof.
  unfold is_running, iterations. destruct (stop_after w) as [k|]; [| done].
  intros H%Nat.ltb_ge. lia.
Qed.

Lemma iterations_go (i n : nat) :
  is_running w i = true → iterations w i (S n) = S (iterations w (S i) n).
Proof.
  unfold is_running, iterations. destruct (stop_after w) as [k|]; [| done].
  intros H%Nat.ltb_lt. lia.
Qed.

(** On cells that all hold strings the loop is left normally, after as many
    iterations as the flag allows; each of them asks the API once, about
    its own cell, and sends one progress event and one log line. *)
Lemma loop_strings (total : nat) (cells : list coord) :
  ∀ i sh, Forall (λ c : coord, c.2 = 2) cells →
    (∀ c, c ∈ cells → Py.is_str (value sh c) = true) →
    let st := shorten_rows w total i cells sh in
    let n := iterations w i (length cells) in
    how st = Normal ∧
    requests (events st) = request_for w sh <$> take n cells ∧
    progress_values (events st) = (λ k, Float.percent k total) <$> seq i n ∧
    length (lines (events st)) = n.
Proof.
  induction cells as [|cell rest IH]; intros i sh Hcol Hstr.
  { cbv zeta. assert (iterations w i (length (@nil coord)) = 0) as ->; [| done].
    unfold iterations. destruct (stop_after w); simpl; lia. }
  apply Forall_cons in Hcol as [Hcol Hcols].
  destruct (shorten_rows_cons w total i cell rest sh)
    as [[Hrun ->] | [(_ & Hn & _) | (Hrun & url & Hurl & ->)]].
  - cbv zeta. cbn [length]. by rewrite iterations_stop.
  - rewrite Hstr in Hn; [done | left].
  - cbv zeta. cbn [how book events length]. rewrite (iterations_go _ _ Hrun).
    destruct (IH (S i) (try_shorten w cell.1 url sh).1 Hcols)
      as (IH1 & IH2 & IH3 & IH4).
    { intros c Hc. rewrite try_shorten_url.
      - apply Hstr. by right.
      - by eapply Forall_forall in Hcols. }
    split; [done |].
    rewrite progress_values_iteration, requests_iteration, lines_iteration,
      IH2, IH3, IH4.
    split; [| done]. cbn [take fmap list_fmap]. f_equal.
    + unfold request_for. by rewrite Hurl.
    + apply Forall_fmap_ext_1, Forall_take.
      eapply Forall_impl; [exact Hcols |]. intros c Hc. unfold request_for.
      by rewrite try_shorten_url.
Qed.

(** What one iteration sends for its row: a progress event, the request,
    an assignment to the output cell at most, a log line. *)
Lemma try_shorten_shape (row : nat) (url : string) (sh : sheet) :
  ∃ mid l,
    (try_shorten w row url sh).2 = HttpGet (api_url w url) :: mid ++ [LogUpdated l] ∧
    (mid = [] ∨ ∃ v, mid = [CellAssigned (row, 3) v]).
Proof.
  unfold try_shorten, set_value. destruct (api w row) as [e|e|[]]; simpl;
    try (eexists [], _; split; [done | by left]).
  destruct (Py.eq_int _ _); simpl; [destruct (bind_value _); simpl |].
  - eexists [], _. split; [done | by left].
  - eexists [_], _. split; [done |]. right. by eexists.
  - eexists [], _. split; [done | by left].
Qed.

Lemma requested_false_nil (es : list effect) :
  (es = [] ∨ ∃ p url rest, es = ProgressUpdated p url :: HttpGet (api_url w url) :: rest) →
  existsb (λ e, match e with HttpGet _ => true | _ => false end) es = false →
  es = [].
Proof. intros [-> | (p & url & rest & ->)]; [done | discriminate]. Qed.

(** The effects of the loop for one row: none, or those of a whole
    iteration. *)
Lemma loop_row_shape (total row : nat) (cells : list coord) :
  ∀ i sh, url_cells cells →
    let es := row_effects row (events (shorten_rows w total i cells sh)) in
    es = [] ∨
    ∃ j url, cells !! j = Some (row, 2) ∧ value sh (row, 2) = PStr url ∧
             es = ProgressUpdated (Float.percent (i + j) total) url
                    :: (try_shorten w row url sh).2.
Proof.
  intros i sh Hcells es.
  destruct (requested row (events (shorten_rows w total i cells sh))) eqn:Hreq.
  - right.
    destruct (loop_requested w total row cells i sh Hcells Hreq)
      as (j & url & Hj & _ & Hv & He & _).
    by exists j, url.
  - left. clear Hcells. subst es. revert i sh Hreq.
    induction cells as [|cell rest IH]; intros i sh; [done |].
    destruct (shorten_rows_cons w total i cell rest sh)
      as [[_ ->] | [(_ & _ & ->) | (_ & url & _ & ->)]];
      cbv zeta; cbn [how book events]; try done.
    unfold requested. destruct (decide (cell.1 = row)) as [<- | Hne].
    + rewrite row_effects_cons_same, row_effects_app, row_effects_tag.
      destruct (try_shorten_shape cell.1 url sh) as (mid & l & -> & _). done.
    + rewrite row_effects_cons_other, row_effects_app, row_effects_tag_other by done.
      apply IH.
Qed.

(** The loop asks the API about a cell it gets to. *)
Lemma loop_reaches (total : nat) (cells : list coord) :
  ∀ i sh j row, Forall (λ c : coord, c.2 = 2) cells →
    cells !! j = Some (row, 2) → is_running w (i + j) = true →
    (∀ c, c ∈ take (S j) cells → Py.is_str (value sh c) = true) →
    requested row (events (shorten_rows w total i cells sh)) = true.
Proof.
  induction cells as [|cell rest IH]; intros i sh j row Hcol Hj Hrun Hstr; [done |].
  apply Forall_cons in Hcol as [Hcol Hcols].
  assert (Hcell : Py.is_str (value sh cell) = true) by (apply Hstr; left).
  assert (Hi : is_running w i = true) by (eapply is_running_earlier; [| done]; lia).
  destruct (shorten_rows_cons w total i cell rest sh)
    as [[? _] | [(_ & Hn & _) | (_ & url & Hurl & ->)]]; [congruence | congruence |].
  cbv zeta. cbn [how book events]. unfold requested.
  destruct (decide (cell.1 = row)) as [<- | Hne].
  - rewrite row_effects_cons_same, row_effects_app, row_effects_tag.
    by destruct (try_shorten_shape cell.1 url sh) as (mid & l & -> & _).
  - rewrite row_effects_cons_other, row_effects_app, row_effects_tag_other by done.
    destruct j as [|j]; simpl in Hj.
    { injection Hj as ->. by destruct Hne. }
    apply (IH (S i) _ j row Hcols Hj).
    + by replace (S i + j) with (i + S j) by lia.
    + intros c Hc. rewrite try_shorten_url.
      * apply Hstr. by right.
      * apply elem_of_take in Hc as (k & Hc & _).
        eapply Forall_forall in Hcols; [done |]. by eapply list_elem_of_lookup_2.
Qed.

Lemma run_reaches (fs : gmap string file) (sh : sheet) (j row : nat) :
  fs !! filepath w = Some (Workbook sh) →
  urls_to_shorten sh !! j = Some (row, 2) →
  reaches w sh j = true →
  requested row (trace (run w fs)) = true.
Proof.
  intros Hfs Hj [Hrun Hstr]%andb_true_iff. unfold requested.
  rewrite (run_row_effects w fs sh row Hfs).
  apply (loop_reaches _ _ 0 sh j row); try done.
  - apply url_cells_urls_to_shorten.
  - intros c Hc. rewrite forallb_forall in Hstr. by apply Hstr, list_elem_of_In.
Qed.

End WorkerFacts.

(** ** The properties of the specification *)

Section Claims.
Import Sheet Worker.








(** C2.  Over the whole run the output cell of a row is written only after
    a successful response for that row: every assignment in the trace is to
    column 3 of the row being processed, follows a response with status 200
    and stores its [shorturl]; and a cell that lies outside column 3, or in a
    row without a successful response, is at the end as it was loaded. *)
Theorem output_cell_written_only_on_success (w : worker) (fs : gmap string file) :
  (∀ o c v, (o, CellAssigned c v) ∈ trace (run w fs) →
     o = Some c.1 ∧ c.2 = 3 ∧
     ∃ d, api w c.1 = Json (PDict d) ∧
          Py.eq_int (Py.get d "status" PNone) 200 = true ∧
          v = Py.get d "shorturl" PNone)
  ∧ (∀ sh final (c : coord),
       fs !! filepath w = Some (Workbook sh) →
       memory (run w fs) = Some final →
       succeeded (api w c.1) = false ∨ c.2 ≠ 3 →
       final !! c = sh !! c).
Proof.
  split.
  - intros o c v. destruct (fs !! filepath w) as [[sh | e] |] eqn:Hfs.
    + destruct (run_loaded w fs sh Hfs) as (_ & tail & -> & Htail).
      intros [H | H]%elem_of_app; [by eapply loop_assigned |].
      eapply Forall_forall in Htail as [_ Htail]; [| done].
      by destruct (Htail c v).
    + unfold run. rewrite Hfs. simpl. by intros [[=] | ?%elem_of_nil]%elem_of_cons.
    + unfold run. rewrite Hfs. destruct (supported_format _); simpl;
        by intros [[=] | ?%elem_of_nil]%elem_of_cons.
  - intros sh final c Hfs Hmem Hc.
    destruct (run_loaded w fs sh Hfs) as (Hm & _). rewrite Hm in Hmem.
    injection Hmem as <-. by apply loop_unchanged.
Qed.

Lemma output_cell_written_only_on_success_witness :
  (<[(2, 3) := PStr "http://x/1"]> Example.urls_xlsx : sheet) !! (3, 3) =
    Example.urls_xlsx !! (3, 3).
Proof.
  assert (Hfs : Example.fs !! filepath Example.w = Some (Workbook Example.urls_xlsx))
    by (vm_compute; reflexivity).
  assert (Hmem : memory (run Example.w Example.fs) =
                 Some (<[(2, 3) := PStr "http://x/1"]> Example.urls_xlsx))
    by (vm_compute; reflexivity).
  assert (Hfail : succeeded (api Example.w (3, 3).1) = false)
    by (vm_compute; reflexivity).
  exact (proj2 (output_cell_written_only_on_success Example.w Example.fs)
           Example.urls_xlsx _ (3, 3) Hfs Hmem (or_introl Hfail)).
Defined.

(** C3.  For every workbook with N non-empty URL cells and every k < N: when
    [stop()] takes effect after k rows have been processed, the worker does
    not save, and the file system is as it was. *)
Theorem cancel_leaves_file_unchanged (w : worker) (fs : gmap string file)
    (sh : sheet) (k : nat) :
  fs !! filepath w = Some (Workbook sh) →
  stop_after w = Some k →
  k < length (urls_to_shorten sh) →
  saves (trace (run w fs)) = [] ∧ disk (run w fs) = fs.
Proof.
  intros Hfs Hstop Hk. unfold run. rewrite Hfs.
  destruct (length (urls_to_shorten sh) =? 0) eqn:Hlen.
  { apply Nat.eqb_eq in Hlen. lia. }
  set (st := shorten_rows w _ 0 _ sh).
  destruct (loop_inner_effects w (length (urls_to_shorten sh))
              (urls_to_shorten sh) 0 sh) as [Hsaves _]. fold st in Hsaves.
  assert (Hflag : is_running w (length (urls_to_shorten sh)) = false).
  { unfold is_running. rewrite Hstop. apply Nat.ltb_ge. lia. }
  rewrite Hflag. unfold saves in *.
  destruct (how st); simpl; by rewrite omap_app, Hsaves.
Qed.

Lemma cancel_leaves_file_unchanged_witness :
  saves (trace (run Example.w_stopped Example.fs)) = [] ∧
  disk (run Example.w_stopped Example.fs) = Example.fs.
Proof.
  apply (cancel_leaves_file_unchanged Example.w_stopped Example.fs Example.urls_xlsx 1).
  - vm_compute. reflexivity.
  - reflexivity.
  - vm_compute. lia.
Defined.

(** C7.  For every workbook in which no URL cell is collected (no non-empty
    cell in column 2 from row 2 on), the trace is the single terminal
    message that no URLs were found: no progress event, no log line, no
    save; the file system is as it was. *)
Theorem no_urls_found (w : worker) (fs : gmap string file) (sh : sheet) :
  fs !! filepath w = Some (Workbook sh) →
  urls_to_shorten sh = [] →
  trace (run w fs) = [(None, Finished NoUrlsFound)] ∧ disk (run w fs) = fs.
Proof.
  intros Hfs Hurls. unfold run. by rewrite Hfs, Hurls.
Qed.

Lemma no_urls_found_witness :
  trace (run Example.w Example.fs_header) = [(None, Finished NoUrlsFound)] ∧
  disk (run Example.w Example.fs_header) = Example.fs_header.
Proof.
  apply (no_urls_found Example.w Example.fs_header Example.header_xlsx).
  - vm_compute. reflexivity.
  - vm_compute. reflexivity.
Defined.

(** C10.  A cell of column 2, in a row from 2 on, is collected exactly when
    its value is truthy; so a cell holding 0, [False] or the empty string is
    not among the N collected cells, and the run has no effect for its row:
    no progress event, no API call, no log line. *)
Theorem falsy_cells_are_skipped (w : worker) (fs : gmap string file) (sh : sheet) :
  fs !! filepath w = Some (Workbook sh) →
  (∀ row, 2 ≤ row →
     (row, 2) ∈ urls_to_shorten sh ↔ Py.truthy (value sh (row, 2)) = true)
  ∧ (∀ row,
       value sh (row, 2) = PInt 0 ∨ value sh (row, 2) = PBool false
         ∨ value sh (row, 2) = PStr "" →
       ((row, 2) ∉ urls_to_shorten sh) ∧ row_effects row (trace (run w fs)) = []).
Proof.
  intros Hfs. split.
  - intros row Hrow. rewrite elem_of_urls_to_shorten. simpl.
    split; [by intros (_ & _ & ?) | by intros ?].
  - intros row Hv.
    assert (Hnot : ∀ k, (row, k) ∉ urls_to_shorten sh).
    { intros k (Hk & _ & Ht)%elem_of_urls_to_shorten. simpl in Hk. subst k.
      destruct Hv as [Hv | [Hv | Hv]]; by rewrite Hv in Ht. }
    split; [apply Hnot |].
    rewrite (run_row_effects w fs sh row Hfs). apply loop_row_effects_other.
    intros ([r k] & -> & Hin)%list_elem_of_fmap. by apply (Hnot k).
Qed.

Lemma falsy_cells_are_skipped_witness :
  ((2, 2) ∉ urls_to_shorten Example.gaps_xlsx) ∧
  row_effects 2 (trace (run Example.w Example.fs_gaps)) = [].
Proof.
  assert (Hfs : Example.fs_gaps !! filepath Example.w = Some (Workbook Example.gaps_xlsx))
    by (vm_compute; reflexivity).
  assert (Hv : value Example.gaps_xlsx (2, 2) = PInt 0) by (vm_compute; reflexivity).
  exact (proj2 (falsy_cells_are_skipped Example.w Example.fs_gaps Example.gaps_xlsx Hfs)
           2 (or_introl Hv)).
Defined.

(** C8.  The example of the specification: column B holds
    ["http://a.com", "http://b.com"], the API answers
    [{"status": 200, "shorturl": "http://x/1"}] for the first row and
    [{"status": 400, "error": "bad url"}] for the second.  A run that is not
    cancelled leaves column C as ["http://x/1", empty], sends two log lines,
    a success and a failure, and saves the file with the partial result. *)
Theorem spec_example :
  let r := run Example.w Example.fs in
  let final := <[(2, 3) := PStr "http://x/1"]> Example.urls_xlsx in
  memory r = Some final ∧
  value final (2, 3) = PStr "http://x/1" ∧
  value final (3, 3) = PNone ∧
  log_lines (snd <$> trace r) =
    [Success "http://a.com" (PStr "http://x/1");
     Failure "http://b.com" (PStr "bad url")] ∧
  saves (trace r) = ["urls.xlsx"] ∧
  terminal_messages (trace r) = [Completed "urls.xlsx"] ∧
  disk r !! "urls.xlsx" = Some (Workbook final).
Proof.
  repeat split; vm_compute; reflexivity.
Qed.

(** C4, as the code has it.  For every workbook with N >= 1 non-empty URL
    cells, all of them strings, a run that is not cancelled sends N + 1
    progress events: one per cell, with the percentages
    [int((i / N) * 100)] for i = 0 .. N-1, and a last one with 100.  The
    percentages never decrease. *)
Theorem progress_events_of_a_full_run (w : worker) (fs : gmap string file) (sh : sheet) :
  fs !! filepath w = Some (Workbook sh) →
  stop_after w = None →
  1 ≤ length (urls_to_shorten sh) →
  all_str sh = true →
  let N := length (urls_to_shorten sh) in
  let ps := progress_values (trace (run w fs)) in
  ps = ((λ i, Float.percent i N) <$> seq 0 N) ++ [100%Z] ∧
  length ps = N + 1 ∧
  (∀ i j a b, i ≤ j → ps !! i = Some a → ps !! j = Some b → (a ≤ b)%Z) ∧
  last ps = Some 100%Z.
Proof.
  intros Hfs Hstop HN Hstr N ps.
  assert (Hps : ps = ((λ i, Float.percent i N) <$> seq 0 N) ++ [100%Z]).
  { subst ps. unfold run. rewrite Hfs.
    destruct (length (urls_to_shorten sh) =? 0) eqn:Hlen.
    { apply Nat.eqb_eq in Hlen. lia. }
    destruct (loop_all_str w N (urls_to_shorten sh) Hstop 0 sh) as [Hhow Hpv].
    - apply url_cells_urls_to_shorten.
    - intros c Hc. unfold all_str in Hstr. rewrite forallb_forall in Hstr.
      by apply Hstr, list_elem_of_In.
    - fold N. rewrite Hhow. unfold is_running. rewrite Hstop.
      unfold progress_values in *.
      destruct (save w) as [| | e [e' |]]; simpl; by rewrite omap_app, Hpv. }
  split; [done |]. rewrite Hps.
  split; [by rewrite length_app, length_fmap, length_seq |].
  split; [| by rewrite last_snoc].
  assert (Hlook : ∀ i a,
            (((λ i, Float.percent i N) <$> seq 0 N) ++ [100%Z]) !! i = Some a →
            (i < N ∧ a = Float.percent i N) ∨ (i = N ∧ a = 100%Z)).
  { intros i a Hi. destruct (decide (i < N)) as [Hlt | Hge].
    - left. split; [done |].
      rewrite lookup_app_l in Hi by (by rewrite length_fmap, length_seq).
      rewrite list_lookup_fmap, lookup_seq_lt in Hi by done.
      by injection Hi as <-.
    - right. rewrite lookup_app_r in Hi by (rewrite length_fmap, length_seq; lia).
      rewrite length_fmap, length_seq in Hi.
      destruct (i - N) as [|n] eqn:Hd; [| done].
      injection Hi as <-. split; [lia | done]. }
  intros i j a b Hij Hi Hj.
  destruct (Hlook i a Hi) as [[Hi' ->] | [-> ->]];
    destruct (Hlook j b Hj) as [[Hj' ->] | [-> ->]].
  - by apply percent_mono.
  - apply percent_le_100. lia.
  - lia.
  - done.
Qed.

Lemma progress_events_of_a_full_run_witness :
  let N := length (urls_to_shorten Example.urls_xlsx) in
  let ps := progress_values (trace (run Example.w Example.fs)) in
  ps = ((λ i, Float.percent i N) <$> seq 0 N) ++ [100%Z] ∧
  length ps = N + 1 ∧
  (∀ i j a b, i ≤ j → ps !! i = Some a → ps !! j = Some b → (a ≤ b)%Z) ∧
  last ps = Some 100%Z.
Proof.
  apply (progress_events_of_a_full_run Example.w Example.fs Example.urls_xlsx).
  - vm_compute. reflexivity.
  - reflexivity.
  - vm_compute. lia.
  - vm_compute. reflexivity.
Defined.

(** C4 as the specification states it fails: with the two URLs of the
    example the worker sends three progress events, not two. *)
Lemma progress_count_counterexample :
  stop_after Example.w = None ∧
  length (urls_to_shorten Example.urls_xlsx) = 2 ∧
  progress_values (trace (run Example.w Example.fs)) = [0; 50; 100]%Z ∧
  length (progress_values (trace (run Example.w Example.fs))) ≠
    length (urls_to_shorten Example.urls_xlsx).
Proof.
  repeat split; try (vm_compute; reflexivity). vm_compute. discriminate.
Qed.




End Claims.


Section CollectedCells.
Import Sheet Worker.

(** Rows of column 2 taken in increasing order stay so when filtered. *)
Lemma filter_rows_sorted (P : coord → Prop) `{!∀ c, Decision (P c)} (n : nat) :
  ∀ a, StronglySorted (λ c d : coord, c.1 < d.1)
         (filter P ((λ r, (r, 2)) <$> seq a n)).
Proof.
  induction n as [|n IH]; intros a; [constructor |].
  cbn [seq fmap list_fmap].
  assert (Hall : Forall (λ d : coord, a < d.1)
                   (filter P ((λ r, (r, 2)) <$> seq (S a) n))).
  { apply Forall_forall. intros d [_ (r & -> & Hr)%list_elem_of_fmap]%list_elem_of_filter.
    apply elem_of_seq in Hr. simpl. lia. }
  destruct (decide (P (a, 2))) as [HP | HP].
  - rewrite filter_cons_True by done. by constructor.
  - rewrite filter_cons_False by done. apply IH.
Qed.

End CollectedCells.

Section GuiFacts.
Import Worker Trace Gui.

(** Delivering events that hold no terminal message appends their log
    lines and leaves the worker, the button and the chosen file alone. *)
Lemma deliver_all_running (t : list event) :
  ∀ win, terminal_messages t = [] →
    textEdit_log (deliver_all win t) = textEdit_log win ++ (Line <$> lines t) ∧
    the_worker (deliver_all win t) = the_worker win ∧
    pushButton_start (deliver_all win t) = pushButton_start win ∧
    lineEdit_filepath (deliver_all win t) = lineEdit_filepath win.
Proof.
  unfold deliver_all.
  induction t as [|[o e] t IH]; intros win Hterm.
  { simpl. by rewrite app_nil_r. }
  unfold terminal_messages, lines in *.
  destruct e as [p u | l | m | u | c v | p]; try discriminate;
    cbn [fmap list_fmap foldl snd deliver omap list_omap] in *.
  - destruct (IH (update_progress win p u) Hterm) as (H1 & H2 & H3 & H4).
    by rewrite H1, H2, H3, H4.
  - destruct (IH (update_log win (Line l)) Hterm) as (H1 & H2 & H3 & H4).
    rewrite H1, H2, H3, H4. simpl. by rewrite <- app_assoc.
  - destruct (IH win Hterm) as (H1 & H2 & H3 & H4). by rewrite H1, H2, H3, H4.
  - destruct (IH win Hterm) as (H1 & H2 & H3 & H4). by rewrite H1, H2, H3, H4.
  - destruct (IH win Hterm) as (H1 & H2 & H3 & H4). by rewrite H1, H2, H3, H4.
Qed.

End GuiFacts.

(** ** Further properties read off the code *)

Section Extras.
Import Sheet Worker Trace Gui.

(** X1.  Whatever happens, a run sends exactly one terminal message on
    [finished], and it is the last thing the run does. *)
Theorem one_terminal_message_ends_the_run (w : worker) (fs : gmap string file) :
  ∃ m, terminal_messages (trace (run w fs)) = [m] ∧
       last (trace (run w fs)) = Some (None, Finished m).
Proof.
  destruct (run_trace_shape w fs) as (body & m & -> & Hbody).
  exists m. split; [| apply last_snoc].
  unfold terminal_messages in *. by rewrite omap_app, Hbody.
Qed.

(** X2.  A run writes to no file but its own: every other path of the file
    system is as before.  [workbook.save] completes at most once, exactly
    when the terminal message is the one of completion, and the file then
    holds the workbook object as the run left it.  Otherwise the file system
    is unchanged, but for a [workbook.save] that fails part-way: the run
    then ends with the generic message and the file is left damaged. *)
Theorem run_touches_only_its_file (w : worker) (fs : gmap string file) :
  (∀ p, p ≠ filepath w → disk (run w fs) !! p = fs !! p) ∧
  ((saves (trace (run w fs)) = [] ∧ disk (run w fs) = fs ∧
    ∀ p, terminal_messages (trace (run w fs)) ≠ [Completed p])
   ∨ (save w = SaveSucceeds ∧
      saves (trace (run w fs)) = [filepath w] ∧
      terminal_messages (trace (run w fs)) = [Completed (filepath w)] ∧
      ∃ final, memory (run w fs) = Some final ∧
               disk (run w fs) = <[filepath w := Workbook final]> fs)
   ∨ (∃ e e', save w = SaveRaises e (Some e') ∧
        saves (trace (run w fs)) = [] ∧
        terminal_messages (trace (run w fs)) = [Unexpected (Message e)] ∧
        disk (run w fs) = <[filepath w := NotAWorkbook e']> fs)).
Proof.
  unfold run. destruct (fs !! filepath w) as [[sh | e] |] eqn:Hfs;
    [| split; [done | by left] | destruct (supported_format _); (split; [done | by left])].
  destruct (length (urls_to_shorten sh) =? 0); [split; [done | by left] |].
  set (st := shorten_rows w _ 0 _ sh).
  destruct (loop_inner_effects w (length (urls_to_shorten sh))
              (urls_to_shorten sh) 0 sh) as [Hsaves Hterm].
  fold st in Hsaves, Hterm. unfold saves, terminal_messages in *.
  destruct (how st);
    [destruct (is_running w _); [destruct (save w) as [| | e0 [e' |]] |] |]; simpl;
    rewrite !omap_app, Hsaves, Hterm; simpl.
  - split; [intros p Hp; by rewrite lookup_insert_ne |].
    right. left. repeat split; try done. by eexists.
  - split; [done | by left].
  - split; [intros p Hp; by rewrite lookup_insert_ne |].
    right. right. by exists e0, e'.
  - split; [done | by left].
  - split; [done | by left].
  - split; [done | by left].
Qed.

Lemma run_touches_only_its_file_witness :
  disk (run Sample.w_disk_full Example.fs) !! "other.xlsx" = Example.fs !! "other.xlsx" ∧
  disk (run Example.w Example.fs) !! "other.xlsx" = Example.fs !! "other.xlsx".
Proof.
  split.
  - apply (proj1 (run_touches_only_its_file Sample.w_disk_full Example.fs) "other.xlsx").
    vm_compute. discriminate.
  - apply (proj1 (run_touches_only_its_file Example.w Example.fs) "other.xlsx").
    vm_compute. discriminate.
Defined.

(** X3.  When no collected cell holds anything but a string and [stop()] is
    never called, the run asks the API once about each collected cell, in
    the order of [urls_to_shorten], with the URL of line 45, sends one log
    line per cell, and calls [workbook.save].  When the save succeeds the
    run ends with the message of completion and the file holds the workbook
    object; when it raises, nothing has been saved and the run ends with the
    message for [FileNotFoundError] or with the generic one. *)
Theorem full_run_completes (w : worker) (fs : gmap string file) (sh : sheet) :
  fs !! filepath w = Some (Workbook sh) →
  stop_after w = None →
  all_str sh = true →
  1 ≤ length (urls_to_shorten sh) →
  requests (trace (run w fs)) = request_for w sh <$> urls_to_shorten sh ∧
  length (lines (trace (run w fs))) = length (urls_to_shorten sh) ∧
  match save w with
  | SaveSucceeds =>
      saves (trace (run w fs)) = [filepath w] ∧
      terminal_messages (trace (run w fs)) = [Completed (filepath w)] ∧
      ∃ final, memory (run w fs) = Some final ∧
               disk (run w fs) !! filepath w = Some (Workbook final)
  | SaveRaisesFileNotFound =>
      saves (trace (run w fs)) = [] ∧
      terminal_messages (trace (run w fs)) = [FileNotFound]
  | SaveRaises e _ =>
      saves (trace (run w fs)) = [] ∧
      terminal_messages (trace (run w fs)) = [Unexpected (Message e)]
  end.
Proof.
  intros Hfs Hstop Hstr HN. unfold run. rewrite Hfs.
  destruct (length (urls_to_shorten sh) =? 0) eqn:Hlen.
  { apply Nat.eqb_eq in Hlen. lia. }
  destruct (loop_strings w (length (urls_to_shorten sh)) (urls_to_shorten sh) 0 sh)
    as (Hhow & Hreq & _ & Hlines).
  { apply url_cells_urls_to_shorten. }
  { intros c Hc. unfold all_str in Hstr. rewrite forallb_forall in Hstr.
    by apply Hstr, list_elem_of_In. }
  destruct (loop_inner_effects w (length (urls_to_shorten sh))
              (urls_to_shorten sh) 0 sh) as [Hsaves Hterm].
  unfold iterations in *. rewrite Hstop in *. rewrite firstn_all in Hreq.
  rewrite Hhow. unfold is_running. rewrite Hstop.
  unfold requests, lines, saves, terminal_messages in *.
  destruct (save w) as [| | e [e' |]]; simpl;
    rewrite !omap_app, Hreq, Hsaves, Hterm, length_app, Hlines; simpl;
    repeat split; try done; try lia; try (by rewrite app_nil_r).
  eexists. split; [done |]. apply lookup_insert_eq.
Qed.

Lemma full_run_completes_witness :
  (requests (trace (run Example.w Example.fs)) =
     request_for Example.w Example.urls_xlsx <$> urls_to_shorten Example.urls_xlsx ∧
   length (lines (trace (run Example.w Example.fs))) =
     length (urls_to_shorten Example.urls_xlsx) ∧
   saves (trace (run Example.w Example.fs)) = [filepath Example.w] ∧
   terminal_messages (trace (run Example.w Example.fs)) = [Completed (filepath Example.w)] ∧
   ∃ final, memory (run Example.w Example.fs) = Some final ∧
            disk (run Example.w Example.fs) !! filepath Example.w = Some (Workbook final)) ∧
  (requests (trace (run Sample.w_locked Example.fs)) =
     request_for Sample.w_locked Example.urls_xlsx <$> urls_to_shorten Example.urls_xlsx ∧
   length (lines (trace (run Sample.w_locked Example.fs))) =
     length (urls_to_shorten Example.urls_xlsx) ∧
   saves (trace (run Sample.w_locked Example.fs)) = [] ∧
   terminal_messages (trace (run Sample.w_locked Example.fs)) =
     [Unexpected (Message "PermissionError")]) ∧
  (requests (trace (run Sample.w_no_directory Example.fs)) =
     request_for Sample.w_no_directory Example.urls_xlsx
       <$> urls_to_shorten Example.urls_xlsx ∧
   length (lines (trace (run Sample.w_no_directory Example.fs))) =
     length (urls_to_shorten Example.urls_xlsx) ∧
   saves (trace (run Sample.w_no_directory Example.fs)) = [] ∧
   terminal_messages (trace (run Sample.w_no_directory Example.fs)) = [FileNotFound]).
Proof.
  assert (Hfs : Example.fs !! filepath Example.w = Some (Workbook Example.urls_xlsx))
    by (vm_compute; reflexivity).
  assert (Hstr : all_str Example.urls_xlsx = true) by (vm_compute; reflexivity).
  assert (HN : 1 ≤ length (urls_to_shorten Example.urls_xlsx)) by (vm_compute; lia).
  split; [| split].
  - exact (full_run_completes Example.w Example.fs Example.urls_xlsx Hfs eq_refl Hstr HN).
  - exact (full_run_completes Sample.w_locked Example.fs Example.urls_xlsx
             Hfs eq_refl Hstr HN).
  - exact (full_run_completes Sample.w_no_directory Example.fs Example.urls_xlsx
             Hfs eq_refl Hstr HN).
Defined.

(** X4.  When [stop()] takes effect after k of the N collected cells
    (k <= N, all cells strings), the run asks the API about the first k
    cells only, still sends the progress event of line 62 with 100, ends
    with the message of interruption, and saves nothing.  This includes
    k = N: a stop after the last row discards the work of the whole run. *)
Theorem cancelled_run_stops_asking (w : worker) (fs : gmap string file)
    (sh : sheet) (k : nat) :
  fs !! filepath w = Some (Workbook sh) →
  stop_after w = Some k →
  all_str sh = true →
  1 ≤ length (urls_to_shorten sh) →
  k ≤ length (urls_to_shorten sh) →
  requests (trace (run w fs)) = request_for w sh <$> take k (urls_to_shorten sh) ∧
  progress_values (trace (run w fs)) =
    ((λ i, Float.percent i (length (urls_to_shorten sh))) <$> seq 0 k) ++ [100%Z] ∧
  terminal_messages (trace (run w fs)) = [Interrupted] ∧
  saves (trace (run w fs)) = [] ∧
  disk (run w fs) = fs.
Proof.
  intros Hfs Hstop Hstr HN Hk. unfold run. rewrite Hfs.
  destruct (length (urls_to_shorten sh) =? 0) eqn:Hlen.
  { apply Nat.eqb_eq in Hlen. lia. }
  destruct (loop_strings w (length (urls_to_shorten sh)) (urls_to_shorten sh) 0 sh)
    as (Hhow & Hreq & Hprog & _).
  { apply url_cells_urls_to_shorten. }
  { intros c Hc. unfold all_str in Hstr. rewrite forallb_forall in Hstr.
    by apply Hstr, list_elem_of_In. }
  destruct (loop_inner_effects w (length (urls_to_shorten sh))
              (urls_to_shorten sh) 0 sh) as [Hsaves Hterm].
  unfold iterations in *. rewrite Hstop in *.
  replace (Nat.min (k - 0) (length (urls_to_shorten sh))) with k in * by lia.
  rewrite Hhow. unfold is_running. rewrite Hstop.
  assert ((length (urls_to_shorten sh) <? k) = false) as -> by (apply Nat.ltb_ge; lia).
  simpl. unfold requests, progress_values, saves, terminal_messages in *.
  rewrite !omap_app, Hreq, Hprog, Hsaves, Hterm. simpl.
  repeat split; try done; by rewrite app_nil_r.
Qed.

Lemma cancelled_run_stops_asking_witness :
  requests (trace (run Sample.w_late_stop Example.fs)) =
    request_for Sample.w_late_stop Example.urls_xlsx
      <$> take 2 (urls_to_shorten Example.urls_xlsx) ∧
  progress_values (trace (run Sample.w_late_stop Example.fs)) =
    ((λ i, Float.percent i (length (urls_to_shorten Example.urls_xlsx))) <$> seq 0 2)
      ++ [100%Z] ∧
  terminal_messages (trace (run Sample.w_late_stop Example.fs)) = [Interrupted] ∧
  saves (trace (run Sample.w_late_stop Example.fs)) = [] ∧
  disk (run Sample.w_late_stop Example.fs) = Example.fs.
Proof.
  apply (cancelled_run_stops_asking Sample.w_late_stop Example.fs Example.urls_xlsx 2).
  - vm_compute. reflexivity.
  - reflexivity.
  - vm_compute. reflexivity.
  - vm_compute. lia.
  - vm_compute. lia.
Defined.

(** X5.  An exception raised inside the per-row [try] that is not a
    [RequestException] is caught at line 59: an exception of [requests.get]
    or [response.json()], the [AttributeError] of line 49 when the decoded
    body is not a JSON object, or the exception of the setter of line 51
    when openpyxl refuses the [shorturl] value.  The loop goes on with the
    remaining cells on an unchanged sheet; in the run as a whole the row
    has one log line, the error line with the text of the exception,
    nothing is assigned for the row, and its output cell is as it was
    loaded. *)
Theorem caught_exception_is_logged_and_skipped (w : worker) (row : nat) (e : exception) :
  (∃ text, api w row = RaisesException text ∧ e = Message text)
  ∨ (∃ body, api w row = Json body ∧ (∀ d, body ≠ PDict d) ∧
             e = Message ("'" +:+ Py.type_name body +:+ "' object has no attribute 'get'"))
  ∨ (∃ d, api w row = Json (PDict d) ∧
          Py.eq_int (Py.get d "status" PNone) 200 = true ∧
          bind_value (Py.get d "shorturl" PNone) = inl e) →
  (∀ total i rest sh url,
     is_running w i = true → value sh (row, 2) = PStr url →
     let st := shorten_rows w total (S i) rest sh in
     shorten_rows w total i ((row, 2) :: rest) sh =
       {| how := how st; book := book st;
          events := (Some row, ProgressUpdated (Float.percent i total) url)
                      :: (Some row, HttpGet (api_url w url))
                      :: (Some row, LogUpdated (Error url e))
                      :: events st |})
  ∧ (∀ fs sh j,
       fs !! filepath w = Some (Workbook sh) →
       urls_to_shorten sh !! j = Some (row, 2) →
       reaches w sh j = true →
       ∃ url final,
         value sh (row, 2) = PStr url ∧ memory (run w fs) = Some final ∧
         row_effects row (trace (run w fs)) =
           [ProgressUpdated (Float.percent j (length (urls_to_shorten sh))) url;
            HttpGet (api_url w url);
            LogUpdated (Error url e)] ∧
         final !! (row, 3) = sh !! (row, 3)).
Proof.
  intros Hapi.
  assert (Htry : ∀ url sh,
            try_shorten w row url sh =
              (sh, [HttpGet (api_url w url); LogUpdated (Error url e)])).
  { intros url sh. unfold try_shorten, set_value.
    destruct Hapi as [(text & -> & ->) | [(body & -> & Hbody & ->) | (d & -> & Hs & Hb)]].
    - done.
    - destruct body; try done. by destruct (Hbody d).
    - by rewrite Hs, Hb. }
  split.
  - intros total i rest sh url Hrun Hurl. simpl.
    rewrite Hrun, Hurl. simpl. by rewrite Htry.
  - intros fs sh j Hfs Hj Hreach.
    pose proof (run_reaches w fs sh j row Hfs Hj Hreach) as Hreq.
    destruct (run_requested w fs sh row Hfs Hreq)
      as (j' & url & final & Hj' & _ & Hurl & Hmem & Heff & Hcell).
    assert (j' = j) as ->.
    { destruct (url_cells_urls_to_shorten sh) as [_ Hnodup].
      eapply NoDup_lookup; [exact Hnodup | |];
        rewrite list_lookup_fmap; [by rewrite Hj' | by rewrite Hj]. }
    exists url, final. split; [done |]. split; [done |].
    by rewrite Heff, Hcell, Htry.
Qed.

Lemma caught_exception_is_logged_and_skipped_witness :
  (∃ url final,
     value Example.urls_xlsx (2, 2) = PStr url ∧
     memory (run Sample.w_list Example.fs) = Some final ∧
     row_effects 2 (trace (run Sample.w_list Example.fs)) =
       [ProgressUpdated (Float.percent 0 (length (urls_to_shorten Example.urls_xlsx))) url;
        HttpGet (api_url Sample.w_list url);
        LogUpdated (Error url (Message "'list' object has no attribute 'get'"))] ∧
     final !! (2, 3) = Example.urls_xlsx !! (2, 3)) ∧
  (∃ url final,
     value Example.urls_xlsx (2, 2) = PStr url ∧
     memory (run Sample.w_form_feed Example.fs) = Some final ∧
     row_effects 2 (trace (run Sample.w_form_feed Example.fs)) =
       [ProgressUpdated (Float.percent 0 (length (urls_to_shorten Example.urls_xlsx))) url;
        HttpGet (api_url Sample.w_form_feed url);
        LogUpdated (Error url (IllegalCharacter (String "012"%char "x")))] ∧
     final !! (2, 3) = Example.urls_xlsx !! (2, 3)).
Proof.
  assert (Hfs : Example.fs !! filepath Sample.w_list = Some (Workbook Example.urls_xlsx))
    by (vm_compute; reflexivity).
  assert (H0 : urls_to_shorten Example.urls_xlsx !! 0 = Some (2, 2))
    by (vm_compute; reflexivity).
  assert (R0 : reaches Sample.w_list Example.urls_xlsx 0 = true)
    by (vm_compute; reflexivity).
  assert (Hlist : (∃ text, api Sample.w_list 2 = RaisesException text ∧
                     Message "'list' object has no attribute 'get'" = Message text)
            ∨ (∃ body, api Sample.w_list 2 = Json body ∧ (∀ d, body ≠ PDict d) ∧
                 Message "'list' object has no attribute 'get'" =
                   Message ("'" +:+ Py.type_name body +:+ "' object has no attribute 'get'"))
            ∨ (∃ d, api Sample.w_list 2 = Json (PDict d) ∧
                 Py.eq_int (Py.get d "status" PNone) 200 = true ∧
                 bind_value (Py.get d "shorturl" PNone) =
                   inl (Message "'list' object has no attribute 'get'"))).
  { right. left. exists (PList []). split; [reflexivity |].
    split; [intros d; discriminate | reflexivity]. }
  assert (Hfeed : (∃ text, api Sample.w_form_feed 2 = RaisesException text ∧
                     IllegalCharacter (String "012"%char "x") = Message text)
            ∨ (∃ body, api Sample.w_form_feed 2 = Json body ∧ (∀ d, body ≠ PDict d) ∧
                 IllegalCharacter (String "012"%char "x") =
                   Message ("'" +:+ Py.type_name body +:+ "' object has no attribute 'get'"))
            ∨ (∃ d, api Sample.w_form_feed 2 = Json (PDict d) ∧
                 Py.eq_int (Py.get d "status" PNone) 200 = true ∧
                 bind_value (Py.get d "shorturl" PNone) =
                   inl (IllegalCharacter (String "012"%char "x")))).
  { right. right. eexists. split; [reflexivity |]. split; vm_compute; reflexivity. }
  split.
  - exact (proj2 (caught_exception_is_logged_and_skipped Sample.w_list 2 _ Hlist)
             Example.fs Example.urls_xlsx 0 Hfs H0 R0).
  - exact (proj2 (caught_exception_is_logged_and_skipped Sample.w_form_feed 2 _ Hfeed)
             Example.fs Example.urls_xlsx 0 Hfs H0 R0).
Defined.

(** X6.  In every run a row either has no effect at all, or the effects of
    one whole iteration in this order: one progress event, one request (the
    URL of line 45 for the text shown in the progress event), at most one
    assignment, to the row's output cell, and one log line.  So the API is
    asked at most once per row, and every request is followed by a log
    line. *)
Theorem row_effects_shape (w : worker) (fs : gmap string file) (row : nat) :
  row_effects row (trace (run w fs)) = []
  ∨ ∃ p url mid l,
      row_effects row (trace (run w fs)) =
        ProgressUpdated p url :: HttpGet (api_url w url) :: mid ++ [LogUpdated l] ∧
      (mid = [] ∨ ∃ v, mid = [CellAssigned (row, 3) v]).
Proof.
  destruct (fs !! filepath w) as [[sh | e] |] eqn:Hfs.
  - rewrite (run_row_effects w fs sh row Hfs).
    destruct (loop_row_shape w (length (urls_to_shorten sh)) row (urls_to_shorten sh)
                0 sh (url_cells_urls_to_shorten sh))
      as [H | (j & url & _ & _ & H)]; [by left |].
    right. destruct (try_shorten_shape w row url sh) as (mid & l & Htry & Hmid).
    rewrite H, Htry. by eexists _, url, mid, l.
  - left. unfold run. by rewrite Hfs.
  - left. unfold run. rewrite Hfs. by destruct (supported_format _).
Qed.

(** X7.  Every percentage sent on [progress_updated], in any run, lies
    between 0 and 100. *)
Theorem progress_values_in_range (w : worker) (fs : gmap string file) :
  Forall (λ p, (0 ≤ p ≤ 100)%Z) (progress_values (trace (run w fs))).
Proof.
  unfold run. destruct (fs !! filepath w) as [[sh | e] |];
    [| by constructor | destruct (supported_format _); by constructor].
  destruct (length (urls_to_shorten sh) =? 0); [by constructor |].
  pose proof (loop_progress_range w (length (urls_to_shorten sh))
                (urls_to_shorten sh) 0 sh (Nat.le_refl _)) as Hloop.
  unfold progress_values in *.
  destruct (how _);
    [destruct (is_running w _); [destruct (save w) as [| | ? [? |]] |] |];
    simpl; rewrite omap_app;
    apply Forall_app; (split; [done |]); simpl; repeat constructor; lia.
Qed.

(** X8.  The cells are collected from the top of the sheet down: in
    [urls_to_shorten] a later cell lies in a strictly larger row, every cell
    lies in column 2, and none in row 1 (the header row is never
    shortened). *)
Theorem cells_are_collected_top_down (sh : sheet) :
  (∀ i j ci cj,
     i < j → urls_to_shorten sh !! i = Some ci → urls_to_shorten sh !! j = Some cj →
     ci.1 < cj.1)
  ∧ (∀ c, c ∈ urls_to_shorten sh → c.2 = 2 ∧ 2 ≤ c.1).
Proof.
  split.
  - intros i j ci cj Hij Hi Hj.
    pose proof (filter_rows_sorted (λ cell, Py.truthy (value sh cell))
                  (max_row sh - 1) 2) as Hsorted.
    fold (iter_rows sh) in Hsorted. fold (urls_to_shorten sh) in Hsorted.
    rewrite <- (take_drop j (urls_to_shorten sh)) in Hsorted.
    apply (StronglySorted_app_1_elem_of (λ c d : coord, c.1 < d.1) _ _ ci cj Hsorted).
    + eapply list_elem_of_lookup_2. rewrite lookup_take_lt by done. exact Hi.
    + eapply list_elem_of_lookup_2. rewrite lookup_drop, Nat.add_0_r. exact Hj.
  - intros c (? & ? & _)%elem_of_urls_to_shorten. done.
Qed.

Lemma cells_are_collected_top_down_witness :
  (3, 2).1 < (6, 2).1.
Proof.
  apply (proj1 (cells_are_collected_top_down Example.gaps_xlsx) 0 1 (3, 2) (6, 2)).
  - lia.
  - vm_compute. reflexivity.
  - vm_compute. reflexivity.
Defined.

(** X9.  A click on the start button of a window that has no running worker
    starts one exactly when a file has been chosen and [setting.ini] gives
    a non-empty API key.  The worker then gets that file and that key, and
    the log is cleared.  Otherwise nothing is started: the log is replaced
    by a single notice; or, when a file has been chosen and [configparser]
    raises on [setting.ini], the exception leaves the slot, with the window
    as it was and no notice. *)
Theorem start_needs_file_and_key (win : window) (ini : settings) :
  busy win = false →
  (busy (start_shortening win ini) = true ↔
     lineEdit_filepath win ≠ "" ∧ ∃ k, ini = SettingsFile (Some k) ∧ k ≠ "")
  ∧ (busy (start_shortening win ini) = true →
       start_shortening_raises win ini = None ∧
       ∃ k, ini = SettingsFile (Some k) ∧
            the_worker (start_shortening win ini) =
              Some (ShortenWorker_started (lineEdit_filepath win) k) ∧
            textEdit_log (start_shortening win ini) = [])
  ∧ (busy (start_shortening win ini) = false →
       the_worker (start_shortening win ini) = the_worker win ∧
       ((start_shortening_raises win ini = None ∧
         ∃ text, textEdit_log (start_shortening win ini) = [Notice text])
        ∨ (∃ e, ini = SettingsRaise e ∧ lineEdit_filepath win ≠ "" ∧
                start_shortening_raises win ini = Some e ∧
                start_shortening win ini = win))).
Proof.
  intros Hidle. unfold start_shortening, start_shortening_raises. rewrite Hidle.
  destruct (lineEdit_filepath win) as [|a path] eqn:Hpath.
  { unfold busy in *. simpl. rewrite Hidle.
    split; [split; [done | by intros [? _]] |]. split; [done |].
    intros _. split; [done |]. left. split; [done | by eexists]. }
  destruct ini as [|[[|b k]|] | e]; unfold busy in *; simpl; try rewrite Hidle.
  - split; [split; [done | by intros (_ & k & [=] & _)] |]. split; [done |].
    intros _. split; [done |]. left. split; [done | by eexists].
  - split; [split; [done | by intros (_ & k & [= <-] & Hk)] |]. split; [done |].
    intros _. split; [done |]. left. split; [done | by eexists].
  - split; [split; [intros _; split; [done | by eexists] | done] |].
    split; [| done]. intros _. split; [done |]. by eexists.
  - split; [split; [done | by intros (_ & k & [=] & _)] |]. split; [done |].
    intros _. split; [done |]. left. split; [done | by eexists].
  - split; [split; [done | by intros (_ & k & [=] & _)] |]. split; [done |].
    intros _. split; [done |]. right. by exists e.
Qed.

Lemma start_needs_file_and_key_witness :
  (start_shortening_raises Sample.idle (Gui.SettingsFile (Some "KEY")) = None ∧
   ∃ k, Gui.SettingsFile (Some "KEY") = Gui.SettingsFile (Some k) ∧
        the_worker (start_shortening Sample.idle (Gui.SettingsFile (Some "KEY"))) =
          Some (ShortenWorker_started (lineEdit_filepath Sample.idle) k) ∧
        textEdit_log (start_shortening Sample.idle (Gui.SettingsFile (Some "KEY"))) = []) ∧
  (the_worker (start_shortening Sample.idle (Gui.SettingsRaise "InterpolationSyntaxError")) =
     the_worker Sample.idle ∧
   ((start_shortening_raises Sample.idle (Gui.SettingsRaise "InterpolationSyntaxError") =
       None ∧
     ∃ text, textEdit_log
               (start_shortening Sample.idle (Gui.SettingsRaise "InterpolationSyntaxError")) =
             [Notice text])
    ∨ (∃ e, Gui.SettingsRaise "InterpolationSyntaxError" = Gui.SettingsRaise e ∧
            lineEdit_filepath Sample.idle ≠ "" ∧
            start_shortening_raises Sample.idle
              (Gui.SettingsRaise "InterpolationSyntaxError") = Some e ∧
            start_shortening Sample.idle (Gui.SettingsRaise "InterpolationSyntaxError") =
              Sample.idle))).
Proof.
  split.
  - apply (proj1 (proj2 (start_needs_file_and_key Sample.idle
                           (Gui.SettingsFile (Some "KEY")) eq_refl))).
    reflexivity.
  - apply (proj2 (proj2 (start_needs_file_and_key Sample.idle
                           (Gui.SettingsRaise "InterpolationSyntaxError") eq_refl))).
    reflexivity.
Defined.

(** X10.  A click on the start button while the worker is running starts
    nothing: it clears the worker's [is_running] attribute, the thread stays
    as it is, the log and the chosen file are untouched; and a further click
    while the thread is still running changes nothing more. *)
Theorem click_while_busy_requests_stop (win : window) (ini : settings) :
  busy win = true →
  let win' := start_shortening win ini in
  (∃ th, the_worker win = Some th ∧ the_worker win' = Some (stop th)) ∧
  busy win' = true ∧
  textEdit_log win' = textEdit_log win ∧
  lineEdit_filepath win' = lineEdit_filepath win ∧
  ∀ ini', start_shortening win' ini' = win'.
Proof.
  intros Hbusy win'. subst win'. unfold start_shortening. rewrite Hbusy.
  unfold busy in *. destruct (the_worker win) as [th |] eqn:Hth; [| done].
  simpl. repeat split; try done; [by eexists |].
  intros ini'. by rewrite Hbusy.
Qed.

Lemma click_while_busy_requests_stop_witness :
  let win := start_shortening Sample.idle (Gui.SettingsFile (Some "KEY")) in
  let win' := start_shortening win Gui.NoSettingsFile in
  (∃ th, the_worker win = Some th ∧ the_worker win' = Some (stop th)) ∧
  busy win' = true ∧
  textEdit_log win' = textEdit_log win ∧
  lineEdit_filepath win' = lineEdit_filepath win ∧
  ∀ ini', start_shortening win' ini' = win'.
Proof.
  apply (click_while_busy_requests_stop
           (start_shortening Sample.idle (Gui.SettingsFile (Some "KEY")))
           Gui.NoSettingsFile).
  reflexivity.
Defined.

(** X11.  Once the signals of a run have been delivered to the window, in
    the order they were sent, the window is ready for the next run whatever
    the run did: no worker is held, the start button has its idle text, the
    progress bar stands at 100, and the log has gained the run's log lines
    followed by its terminal message. *)
Theorem signals_return_window_to_idle (win : window) (w : worker)
    (fs : gmap string file) :
  let win' := deliver_all win (trace (run w fs)) in
  the_worker win' = None ∧
  busy win' = false ∧
  pushButton_start win' = "短縮開始" ∧
  progressBar win' = 100%Z ∧
  lineEdit_filepath win' = lineEdit_filepath win ∧
  ∃ m, terminal_messages (trace (run w fs)) = [m] ∧
       textEdit_log win' =
         textEdit_log win ++ (Line <$> lines (trace (run w fs))) ++ [Closing m].
Proof.
  destruct (run_trace_shape w fs) as (body & m & -> & Hbody).
  destruct (deliver_all_running body win Hbody) as (Hlog & _ & _ & Hpath).
  unfold deliver_all in *. rewrite fmap_app, foldl_app. simpl.
  unfold busy. simpl. repeat split; try done.
  exists m. unfold terminal_messages, lines in *.
  rewrite !omap_app, Hbody, Hlog. simpl. by rewrite app_nil_r, <- app_assoc.
Qed.

End Extras.

(** ** How close the reported percentage is to the exact one *)

Section FloatAccuracy.
Import Float.
Local Open Scope Q_scope.

Lemma round_half_even_error (x : Q) :
  x - (1 # 2) <= inject_Z (round_half_even x) ∧
  inject_Z (round_half_even x) <= x + (1 # 2).
Proof.
  unfold round_half_even.
  pose proof (Qfloor_le x) as H1. pose proof (Qlt_floor x) as H2.
  rewrite inject_Z_plus in H2.
  destruct (Qcompare_spec (x - inject_Z (Qfloor x)) (1 # 2));
    try destruct (Z.even (Qfloor x)); rewrite ?inject_Z_plus;
    change (inject_Z 1) with 1 in *; split; lra.
Qed.

(** Rounding to binary64 has a relative error of 2^-53 at most. *)
Lemma round_binary64_error (x : Q) :
  0 <= x →
  x * (1 - (1 # 9007199254740992)) <= round_binary64 x ∧
  round_binary64 x <= x * (1 + (1 # 9007199254740992)).
Proof.
  intros Hx0. unfold round_binary64.
  destruct (Qle_bool x 0) eqn:Hle.
  { apply Qle_bool_iff in Hle. assert (x == 0) as -> by lra. split; discriminate. }
  assert (Hx : 0 < x).
  { apply Qnot_le_lt. intros Hc. apply Qle_bool_iff in Hc. congruence. }
  destruct (floor_log2_spec x Hx) as [HL _].
  set (e := (floor_log2 x - 52)%Z) in *.
  pose proof (pow2_pos e) as Pe.
  assert (E1 : 2 ^ floor_log2 x == inject_Z (2 ^ 52) * 2 ^ e).
  { rewrite pow2_inject by lia. rewrite <- pow2_add. unfold e.
    replace (52 + (floor_log2 x - 52))%Z with (floor_log2 x) by lia. reflexivity. }
  destruct (round_half_even_error (x / 2 ^ e)) as [R1 R2].
  set (r := inject_Z (round_half_even (x / 2 ^ e))) in *.
  set (P := 2 ^ e) in *.
  assert (Hs : x / P * P == x) by (field; lra).
  set (s := x / P) in *.
  assert (HP : 4503599627370496 * P <= x).
  { rewrite E1 in HL. exact HL. }
  split; nra.
Qed.

(** The two roundings of line 42 together move the value by 2^-45 at
    most. *)
Lemma times_100_error (q : Q) :
  0 <= q → q <= 1 →
  100 * q - (1 # 35184372088832) <= times_100 (round_binary64 q) ∧
  times_100 (round_binary64 q) <= 100 * q + (1 # 35184372088832).
Proof.
  intros H0 H1. unfold times_100.
  destruct (round_binary64_error q H0) as [A1 A2].
  assert (B0 : 0 <= round_binary64 q * 100) by lra.
  destruct (round_binary64_error _ B0) as [B1 B2].
  split; lra.
Qed.

(** X12.  For a list of at most 2^40 cells, the percentage reported for
    index i is the exact percentage 100 * i / N rounded down, or one less
    than that (as for i = 29, N = 100, which reports 28); it is never
    more. *)
Theorem percent_is_exact_or_one_less (i total : nat) :
  (i < total)%nat → (Z.of_nat total ≤ 2 ^ 40)%Z →
  (100 * Z.of_nat i / Z.of_nat total - 1 ≤ percent i total
     ≤ 100 * Z.of_nat i / Z.of_nat total)%Z.
Proof.
  intros Hi Hmax. unfold percent, true_div.
  set (n := Z.of_nat total) in *. set (a := (100 * Z.of_nat i)%Z).
  assert (Hn : (0 < n)%Z) by lia.
  pose proof (Z.div_mod a n ltac:(lia)) as Hdiv.
  pose proof (Z.mod_pos_bound a n Hn) as Hr.
  set (m := (a / n)%Z) in *. set (r := (a mod n)%Z) in *.
  set (q := inject_Z (Z.of_nat i) / inject_Z n).
  assert (HN : 0 < inject_Z n) by (change 0 with (inject_Z 0); rewrite <- Zlt_Qlt; lia).
  assert (HNmax : inject_Z n <= 1099511627776)
    by (change 1099511627776 with (inject_Z (2 ^ 40)); rewrite <- Zle_Qle; lia).
  assert (Hq0 : 0 <= q).
  { apply Qle_shift_div_l; [exact HN |]. rewrite Qmult_0_l.
    change 0 with (inject_Z 0). rewrite <- Zle_Qle. lia. }
  assert (Hq1 : q <= 1).
  { apply Qle_shift_div_r; [exact HN |]. rewrite Qmult_1_l, <- Zle_Qle. lia. }
  destruct (times_100_error q Hq0 Hq1) as [E1 E2].
  set (y := times_100 (round_binary64 q)) in *.
  assert (Ha : 100 * q * inject_Z n == inject_Z n * inject_Z m + inject_Z r).
  { rewrite <- inject_Z_mult, <- inject_Z_plus, <- Hdiv. unfold a, q.
    rewrite inject_Z_mult. change (inject_Z 100) with 100. field. lra. }
  assert (Hr0 : 0 <= inject_Z r) by (change 0 with (inject_Z 0); rewrite <- Zle_Qle; lia).
  assert (Hr1 : inject_Z r + 1 <= inject_Z n).
  { change 1 with (inject_Z 1). rewrite <- inject_Z_plus, <- Zle_Qle. lia. }
  assert (Hlo : inject_Z m <= 100 * q).
  { apply (Qmult_le_r _ _ (inject_Z n) HN). rewrite Ha. lra. }
  assert (Hup : 100 * q + (1 # 35184372088832) < inject_Z m + 1).
  { apply (Qmult_lt_r _ _ (inject_Z n) HN).
    rewrite Qmult_plus_distr_l, Ha. lra. }
  split.
  - assert (H : inject_Z (m - 1) <= y).
    { replace (m - 1)%Z with (m + (-1))%Z by lia. rewrite inject_Z_plus.
      change (inject_Z (-1)%Z) with (- (1)). lra. }
    apply Qfloor_resp_le in H. by rewrite Qfloor_Z in H.
  - assert (H : y < inject_Z (m + 1)).
    { rewrite inject_Z_plus. change (inject_Z 1) with 1. lra. }
    pose proof (Qfloor_le y) as Hf.
    assert (Hlt : inject_Z (Qfloor y) < inject_Z (m + 1)) by lra.
    rewrite <- Zlt_Qlt in Hlt. lia.
Qed.

Lemma percent_is_exact_or_one_less_witness :
  (100 * Z.of_nat 29 / Z.of_nat 100 - 1 ≤ percent 29 100
     ≤ 100 * Z.of_nat 29 / Z.of_nat 100)%Z.
Proof.
  apply (percent_is_exact_or_one_less 29 100).
  - lia.
  - vm_compute. discriminate.
Defined.

End FloatAccuracy.

(** ** Running again on the file a run has saved *)

Section Rerun.
Import Sheet Worker.

Lemma max_list_bound (ns : list nat) (M : nat) :
  Forall (λ n, n ≤ M) ns → max_list ns ≤ M.
Proof. induction 1 as [|n ns Hn _ IH]; simpl; lia. Qed.

Lemma max_row_least (sh : sheet) (M : nat) :
  1 ≤ M → (∀ c v, sh !! c = Some v → c.1 ≤ M) → max_row sh ≤ M.
Proof.
  intros H1 Hall. unfold max_row. apply Nat.max_lub; [done |].
  apply max_list_bound, Forall_forall.
  intros n ([c v] & -> & Hcv)%list_elem_of_fmap.
  apply elem_of_map_to_list in Hcv. by eapply Hall.
Qed.

Lemma max_row_positive (sh : sheet) : 1 ≤ max_row sh.
Proof. unfold max_row. lia. Qed.

(** Writing into a row that has a cell leaves [max_row] as it is. *)
Lemma max_row_set_value (sh : sheet) (row col col' : nat) (v : pyval) :
  is_Some (sh !! (row, col')) → max_row (<[(row, col) := v]> sh) = max_row sh.
Proof.
  intros [v' Hv']. apply Nat.le_antisymm.
  - apply max_row_least; [apply max_row_positive |]. intros c x Hc.
    destruct (decide (c = (row, col))) as [-> | Hne].
    + by apply (max_row_ge sh (row, col') v').
    + rewrite lookup_insert_ne in Hc by done. by eapply max_row_ge.
  - apply max_row_least; [apply max_row_positive |]. intros c x Hc.
    destruct (decide (c = (row, col))) as [-> | Hne].
    + eapply max_row_ge. apply lookup_insert_eq.
    + eapply max_row_ge. rewrite lookup_insert_ne by done. exact Hc.
Qed.

Lemma try_shorten_max_row (w : worker) (row : nat) (url : string) (sh : sheet) :
  is_Some (sh !! (row, 2)) → max_row (try_shorten w row url sh).1 = max_row sh.
Proof.
  intros Hrow. try_shorten_cases w row. by eapply max_row_set_value.
Qed.

Lemma loop_max_row (w : worker) (total : nat) (cells : list coord) :
  ∀ i sh, Forall (λ c : coord, c.2 = 2 ∧ is_Some (sh !! c)) cells →
    max_row (book (shorten_rows w total i cells sh)) = max_row sh.
Proof.
  induction cells as [|cell rest IH]; intros i sh Hcells; [done |].
  apply Forall_cons in Hcells as [[Hcol Hcell] Hrest].
  destruct (shorten_rows_cons w total i cell rest sh)
    as [[_ ->] | [(_ & _ & ->) | (_ & url & _ & ->)]];
    cbv zeta; cbn [how book events]; try done.
  destruct cell as [r k]. simpl in *. subst k. rewrite IH.
  - by apply try_shorten_max_row.
  - eapply Forall_impl; [exact Hrest |]. intros c [Hc ?]. split; [done |].
    rewrite try_shorten_frame; [done |]. intros ->. discriminate.
Qed.

Lemma filter_agree {A} (P1 P2 : A → Prop)
    `{!∀ x, Decision (P1 x), !∀ x, Decision (P2 x)} (l : list A) :
  Forall (λ x, P1 x ↔ P2 x) l → filter P1 l = filter P2 l.
Proof.
  induction 1 as [|x l Hx _ IH]; [done |].
  destruct (decide (P1 x)) as [H1 | H1].
  - rewrite !filter_cons_True by tauto. by f_equal.
  - rewrite !filter_cons_False by tauto. done.
Qed.

(** X13.  A run never changes which cells a later run collects: on the
    workbook as the run left it, and so on the file it saved,
    [urls_to_shorten] gives the same cells again.  Nothing marks a row as
    done; a second run asks the API again about every URL. *)
Theorem rerun_collects_the_same_cells (w : worker) (fs : gmap string file)
    (sh final : sheet) :
  fs !! filepath w = Some (Workbook sh) →
  memory (run w fs) = Some final →
  urls_to_shorten final = urls_to_shorten sh.
Proof.
  intros Hfs Hmem. destruct (run_loaded w fs sh Hfs) as (Hm & _).
  rewrite Hm in Hmem. injection Hmem as <-.
  set (st := shorten_rows w _ 0 _ sh).
  assert (Hmax : max_row (book st) = max_row sh).
  { apply loop_max_row, Forall_forall.
    intros c (Hc & _ & Ht)%elem_of_urls_to_shorten. split; [done |].
    by apply truthy_is_Some. }
  unfold urls_to_shorten, iter_rows. rewrite Hmax.
  apply filter_agree, Forall_forall.
  intros c (r & -> & _)%list_elem_of_fmap.
  unfold value. subst st. rewrite loop_frame; [done |]. right. discriminate.
Qed.

Lemma rerun_collects_the_same_cells_witness :
  urls_to_shorten (<[(2, 3) := PStr "http://x/1"]> Example.urls_xlsx) =
    urls_to_shorten Example.urls_xlsx.
Proof.
  apply (rerun_collects_the_same_cells Example.w Example.fs).
  - vm_compute. reflexivity.
  - vm_compute. reflexivity.
Defined.

End Rerun.
